(** * SkillSage Hub: skill extraction, gap analysis and job fit

    A shallow embedding of the helper functions and of the script
    branches of [resume.py] that carry logic: "Resume Analysis" (module 1),
    "Create Resume" (module 2), "Resume Comparison" (module 3), "Learning
    Hub" (module 4) and "Interview Prep Helper" (module 5).  Drawing and
    file export are outside the model; of the PDF reader the model keeps
    whether it can read a file and the page texts it yields.

    Conventions.
    - A Python [str] is a [string]: a sequence of code points below 256
      (Latin-1).  On that range [str.lower] is a character-wise map, given
      here in full.
    - A Python [int] is a [Z]; a Python [float] is an IEEE 754 binary64
      number, taken from [SpecFloat] with 53 bits of precision.
    - A Python [dict] literal is an association list in insertion order.
    - An expression that can raise returns a [result]. *)

From Stdlib Require Import Bool Arith ZArith NArith Lia List.
From Stdlib Require Import Ascii String.
From Stdlib Require Import Sorted Permutation.
From Stdlib Require Import OrderedTypeEx.
From Stdlib Require Import Floats.SpecFloat.
Import ListNotations.

Open Scope list_scope.
Open Scope string_scope.

(* ------------------------------------------------------------------ *)
(** ** Python strings *)

Module PyStr.

(** [str.lower] on one Latin-1 code point: A-Z and the accented capitals
    U+00C0-U+00DE (the multiplication sign U+00D7 excepted) move up by 32. *)
Definition lower_char (c : ascii) : ascii :=
  let n := N_of_ascii c in
  if ((65 <=? n) && (n <=? 90) ||
      (192 <=? n) && (n <=? 222) && negb (n =? 215))%N
  then ascii_of_N (n + 32) else c.

(** [s.lower()] *)
Fixpoint lower (s : string) : string :=
  match s with
  | EmptyString => EmptyString
  | String c s' => String (lower_char c) (lower s')
  end.

(** [s.startswith(p)] *)
Fixpoint startswith (p s : string) : bool :=
  match p, s with
  | EmptyString, _ => true
  | String _ _, EmptyString => false
  | String a p', String b s' => Ascii.eqb a b && startswith p' s'
  end.

(** [sub in s] for two strings: some suffix of [s] starts with [sub]. *)
Fixpoint contains (sub s : string) : bool :=
  startswith sub s ||
  match s with
  | EmptyString => false
  | String _ s' => contains sub s'
  end.

(** [sep.join(parts)] *)
Fixpoint join (sep : string) (parts : list string) : string :=
  match parts with
  | [] => ""
  | [p] => p
  | p :: rest => p ++ sep ++ join sep rest
  end.

(** [bool(s)]: a string is falsy exactly when it is empty. *)
Definition truthy (s : string) : bool :=
  match s with EmptyString => false | String _ _ => true end.

(** The tokens of a text: its maximal runs of characters other than the
    blank, what [s.split()] returns when the blank is the only white space
    in [s].  The script never splits a text; the statements about tokens
    below do. *)
Fixpoint words_aux (cur : string) (s : string) : list string :=
  match s with
  | EmptyString => match cur with EmptyString => [] | _ => [cur] end
  | String c s' =>
      if Ascii.eqb c " "%char
      then match cur with
           | EmptyString => words_aux "" s'
           | _ => cur :: words_aux "" s'
           end
      else words_aux (cur ++ String c "") s'
  end.

Definition words (s : string) : list string := words_aux "" s.

End PyStr.

(** The declarative reading of "occurs as a contiguous substring". *)
Definition Substring (sub s : string) : Prop :=
  exists pre post : string, s = pre ++ sub ++ post.

(* ------------------------------------------------------------------ *)
(** ** Python lists, sets and [sorted] *)

Module PyList.

(** [x in l] for a list of strings. *)
Definition mem (x : string) (l : list string) : bool :=
  existsb (String.eqb x) l.

(** [bool(l)] *)
Definition truthy {A} (l : list A) : bool :=
  match l with [] => false | _ :: _ => true end.

(** [len(l)] *)
Definition len {A} (l : list A) : Z := Z.of_nat (List.length l).

(** [sorted(l)] on strings: ascending code-point order.  Python's sort
    is stable, as insertion from the right is. *)
Fixpoint insert (x : string) (l : list string) : list string :=
  match l with
  | [] => [x]
  | y :: l' => if (x <=? y)%string then x :: l else y :: insert x l'
  end.

Definition sorted (l : list string) : list string :=
  fold_right insert [] l.

(** Iterating over [set(l)] yields each distinct element of [l] once, in
    an order fixed by the hash seed of the process.  [set_iteration]
    says that a function is one such enumeration. *)
Definition set_iteration (iter : list string -> list string) : Prop :=
  forall l, NoDup (iter l) /\ (forall x, In x (iter l) <-> In x l).

(** The enumeration used to run the model: first occurrences, in order. *)
Definition set_list (l : list string) : list string :=
  nodup string_dec l.

End PyList.

(** The order [sorted] sorts by, as a relation. *)
Definition str_le (a b : string) : Prop := (a <=? b)%string = true.

(* ------------------------------------------------------------------ *)
(** ** Exceptions *)

(** The exceptions the modelled code can end in: those of Python itself,
    the one [fitz.open] raises on bytes it cannot read, and the one
    Streamlit raises when two widgets are given the same key. *)
Inductive exn : Type :=
| KeyError (key : string)
| ZeroDivisionError
| OverflowError
| ValueError
| FileDataError
| DuplicateWidgetID (key : string).

Inductive result (A : Type) : Type :=
| Ok (a : A)
| Raise (e : exn).

Arguments Ok {A} a.
Arguments Raise {A} e.

Definition bind {A B} (r : result A) (k : A -> result B) : result B :=
  match r with
  | Ok a => k a
  | Raise e => Raise e
  end.

Notation "x <- r ;; k" := (bind r (fun x => k))
  (at level 61, r at next level, right associativity).

(* ------------------------------------------------------------------ *)
(** ** Python floats *)

Module PyFloat.

Definition prec : Z := 53.
Definition emax : Z := 1024.

Definition float : Type := spec_float.

(** [float(n)] for an integer [n]: the nearest binary64 number. *)
Definition of_int (n : Z) : float :=
  binary_normalize prec emax n 0 false.

(** [a / b] on two integers (true division): the quotient of the two
    integers rounded once, which is the binary64 quotient of their
    conversions whenever both are below 2^53, as every length here is. *)
Definition truediv (a b : Z) : result float :=
  if (b =? 0)%Z then Raise ZeroDivisionError
  else Ok (SFdiv prec emax (of_int a) (of_int b)).

(** [x * y] on two floats. *)
Definition mul (x y : float) : float := SFmul prec emax x y.

(** [int(x)]: truncation toward zero. *)
Definition to_int (x : float) : result Z :=
  match x with
  | S754_zero _ => Ok 0%Z
  | S754_finite s m e =>
      let a := match e with
               | Z0 => Zpos m
               | Zpos p => Z.shiftl (Zpos m) (Zpos p)
               | Zneg p => Z.shiftr (Zpos m) (Zpos p)
               end in
      Ok (if s then Z.opp a else a)
  | S754_infinity _ => Raise OverflowError
  | S754_nan => Raise ValueError
  end.

End PyFloat.

(* ------------------------------------------------------------------ *)
(** ** Dictionaries with string keys *)

Definition dict (V : Type) : Type := list (string * V).

(** [d.get(k)] as an option. *)
Fixpoint lookup {V} (d : dict V) (k : string) : option V :=
  match d with
  | [] => None
  | (k', v) :: d' => if String.eqb k k' then Some v else lookup d' k
  end.

(** [d.get(k, default)] *)
Definition dict_get {V} (d : dict V) (k : string) (default : V) : V :=
  match lookup d k with
  | Some v => v
  | None => default
  end.

(** [d[k]] *)
Definition getitem {V} (d : dict V) (k : string) : result V :=
  match lookup d k with
  | Some v => Ok v
  | None => Raise (KeyError k)
  end.

(** [list(d.keys())] and [d.values()] *)
Definition keys {V} (d : dict V) : list string := map fst d.
Definition values {V} (d : dict V) : list V := map snd d.

(* ------------------------------------------------------------------ *)
(** ** Predefined data *)

Definition job_roles : dict (list string) :=
  [ ("Data Analyst",
      ["Python"; "SQL"; "Excel"; "Power BI"; "Statistics"]);
    ("AI/ML Engineer",
      ["Python"; "Machine Learning"; "Deep Learning"; "TensorFlow"; "PyTorch"]);
    ("Web Developer",
      ["HTML"; "CSS"; "JavaScript"; "React"; "SQL"]);
    ("Software Engineer",
      ["Java"; "C++"; "Data Structures"; "Algorithms"]) ].

(** [sorted({skill for skills in job_roles.values() for skill in skills})] *)
Definition all_skills : list string :=
  PyList.sorted (PyList.set_list (flat_map (fun skills => skills) (values job_roles))).

(* ------------------------------------------------------------------ *)
(** ** Helper functions *)

(** The comprehension of [extract_skills]:
    [[skill for skill in all_skills if skill.lower() in text_lower]]. *)
Definition found_skills (text : string) : list string :=
  let text_lower := PyStr.lower text in
  filter (fun skill => PyStr.contains (PyStr.lower skill) text_lower) all_skills.

(** [extract_skills], with the order in which the intermediate set is
    iterated made explicit. *)
Definition extract_skills_with (iter : list string -> list string)
    (text : string) : list string :=
  PyList.sorted (iter (found_skills text)).

Definition extract_skills (text : string) : list string :=
  extract_skills_with PyList.set_list text.

Definition suggest_skills (found_skills : list string) (target_role : string)
    : list string :=
  let role_skills := dict_get job_roles target_role [] in
  filter (fun s => negb (PyList.mem s found_skills)) role_skills.

(* ------------------------------------------------------------------ *)
(** ** Module 1: Resume Analysis *)

(** The roles the select box offers: [list(job_roles.keys())]. *)
Definition role_options : list string := keys job_roles.

(** [int((a/b)*100)] on two integers: a float quotient, a float product,
    then truncation. *)
Definition percent (a b : Z) : result Z :=
  q <- PyFloat.truediv a b ;;
  PyFloat.to_int (PyFloat.mul q (PyFloat.of_int 100)).

(** The [job_fit] expression:
    [int((len(skills)/len(job_roles[target_role]))*100)
       if job_roles[target_role] else 0]. *)
Definition job_fit (skills : list string) (target_role : string) : result Z :=
  cond <- getitem job_roles target_role ;;
  if PyList.truthy cond then
    required <- getitem job_roles target_role ;;
    percent (PyList.len skills) (PyList.len required)
  else Ok 0%Z.

(** [percent n b] is the exact floor of [100 * n / b] for every [n] in
    [ns]: the check that the two float roundings lose nothing. *)
Definition percent_exact_on (b : Z) (ns : list Z) : bool :=
  forallb (fun n => match percent n b with
                    | Ok v => (v =? 100 * n / b)%Z
                    | Raise _ => false
                    end) ns.

(** One entry of [resume_results]. *)
Record ResumeAnalysis : Type := mkAnalysis {
  resume_file : string;
  target_role : string;
  detected_skills : list string;
  missing_skills : list string;
  job_fit_pct : Z
}.

(** The body of the loop over uploaded files, from the extracted text on. *)
Definition analyse (file_name role text : string) : result ResumeAnalysis :=
  let skills := extract_skills text in
  let missing := suggest_skills skills role in
  fit <- job_fit skills role ;;
  Ok (mkAnalysis file_name role skills missing fit).

(* ------------------------------------------------------------------ *)
(** ** Module 2: Create Resume *)

(** The calls made on the [FPDF] object, in order. *)
Inductive pdf_call : Type :=
| add_page
| set_font (family style : string) (size : Z)
| cell (w h : Z) (txt : string) (ln : bool) (align : string)
| ln (h : Z)
| multi_cell (w h : Z) (txt : string).

Definition FPDF : Type := list pdf_call.

(** The label of a button: an emoji, given by its code points, and the
    text that follows it, blank included. *)
Record caption : Type := mkCaption {
  caption_emoji : list N;
  caption_text : string
}.

(** What the page shows after the button handler ran. *)
Inductive widget : Type :=
| warning (msg : string)
| download_button (label : caption) (data : FPDF) (file_name mime : string)
| success (msg : string).

Record ResumeForm : Type := mkForm {
  name : string;
  email : string;
  skills : list string;
  target_job : string;
  summary : string
}.

(** The calls between [pdf = FPDF()] and [pdf.output]. *)
Definition build_pdf (f : ResumeForm) : FPDF :=
  [ add_page;
    set_font "Arial" "B" 16;
    cell 0 10 (name f) true "C";
    set_font "Arial" "" 12;
    cell 0 10 ("Email: " ++ email f) true "C";
    ln 10;
    set_font "Arial" "B" 14;
    cell 0 10 ("Target Job: " ++ target_job f) true "";
    ln 5;
    set_font "Arial" "B" 12;
    cell 0 10 "Professional Summary:" true "";
    set_font "Arial" "" 12;
    multi_cell 0 8 (summary f);
    ln 5;
    set_font "Arial" "B" 12;
    cell 0 10 "Skills:" true "";
    set_font "Arial" "" 12;
    multi_cell 0 8 (PyStr.join ", " (skills f)) ].

(** The body of [if st.button("Generate Resume PDF")]. *)
Definition generate_resume (f : ResumeForm) : list widget :=
  if negb (PyStr.truthy (name f)) || negb (PyStr.truthy (email f))
     || negb (PyList.truthy (skills f)) || negb (PyStr.truthy (summary f))
  then [ warning "Please fill all fields to generate the resume." ]
  else
    let pdf_bytes := build_pdf f in
    [ download_button (mkCaption [11015%N; 65039%N] " Download Resume PDF")
        pdf_bytes (name f ++ "_resume.pdf") "application/pdf";
      success "Resume PDF generated successfully!" ].

(** The script branch: nothing happens until the button is pressed. *)
Definition create_resume (clicked : bool) (f : ResumeForm) : list widget :=
  if clicked then generate_resume f else [].

(** A document was handed to the user. *)
Definition produces_document (out : list widget) : bool :=
  existsb (fun w => match w with download_button _ _ _ _ => true | _ => false end) out.

(** A validation failure was shown to the user. *)
Definition reports_failure (out : list widget) : bool :=
  existsb (fun w => match w with warning _ => true | _ => false end) out.

(* ------------------------------------------------------------------ *)
(** ** The other tables and the text of a PDF *)

Definition learning_links : dict string :=
  [ ("Python", "https://www.coursera.org/learn/python");
    ("SQL", "https://www.w3schools.com/sql/");
    ("Excel", "https://www.microsoft.com/en-us/learning/excel-training.aspx");
    ("Power BI", "https://learn.microsoft.com/en-us/power-bi/");
    ("Statistics", "https://www.khanacademy.org/math/statistics-probability");
    ("Machine Learning", "https://www.coursera.org/learn/machine-learning");
    ("Deep Learning", "https://www.deeplearning.ai/");
    ("TensorFlow", "https://www.tensorflow.org/learn");
    ("PyTorch", "https://pytorch.org/tutorials/");
    ("HTML", "https://www.w3schools.com/html/");
    ("CSS", "https://www.w3schools.com/css/");
    ("JavaScript", "https://www.w3schools.com/js/");
    ("React", "https://reactjs.org/tutorial/tutorial.html");
    ("Java", "https://www.w3schools.com/java/");
    ("C++", "https://www.learncpp.com/");
    ("Data Structures", "https://www.geeksforgeeks.org/data-structures/");
    ("Algorithms", "https://www.geeksforgeeks.org/fundamentals-of-algorithms/") ].

Definition interview_qs : dict (list string) :=
  [ ("Data Analyst",
      ["Explain a project where you analyzed data.";
       "How do you handle missing data?";
       "Explain SQL joins."]);
    ("AI/ML Engineer",
      ["Describe a machine learning project you built.";
       "Explain overfitting and how to prevent it.";
       "Difference between supervised and unsupervised learning."]);
    ("Web Developer",
      ["Explain a project using React.";
       "How do you optimize website performance?";
       "Difference between REST and GraphQL."]);
    ("Software Engineer",
      ["Explain a complex algorithm you implemented.";
       "What is OOP and its principles?";
       "How do you debug code efficiently?"]) ].

(** A PDF that [fitz.open] could read, as far as the script looks at it:
    the name of the file and the text [page.get_text()] yields for each
    page, in order. *)
Record upload : Type := mkUpload {
  upload_name : string;
  upload_pages : list string
}.

(** An uploaded file: a PDF that can be read, or bytes that [fitz.open]
    rejects. *)
Inductive uploaded_file : Type :=
| readable (doc : upload)
| unreadable (file_name : string).

(** [file.name] *)
Definition file_name_of (file : uploaded_file) : string :=
  match file with
  | readable doc => upload_name doc
  | unreadable file_name => file_name
  end.

(** The loop [for page in doc: text += page.get_text()], from [text = ""]. *)
Definition document_text (doc : upload) : string :=
  fold_left (fun text page => text ++ page) (upload_pages doc) "".

(** [extract_text_from_pdf]: [fitz.open] raises on bytes it cannot read,
    otherwise the loop over the pages runs. *)
Definition extract_text_from_pdf (file : uploaded_file) : result string :=
  match file with
  | readable doc => Ok (document_text doc)
  | unreadable _ => Raise FileDataError
  end.

(** The line break that ends the text of a page. *)
Definition newline : string := String (ascii_of_nat 10) "".

(** A page text as [get_text()] yields it: empty, or ended by a line
    break. *)
Definition page_text_shape (page : string) : Prop :=
  page = "" \/ exists body, page = body ++ newline.

(* ------------------------------------------------------------------ *)
(** ** Tables shown on the page *)

(** [d[k] = v]: the value of an existing key is replaced in place, a new
    key goes last. *)
Fixpoint setitem {V} (d : dict V) (k : string) (v : V) : dict V :=
  match d with
  | [] => [(k, v)]
  | (k', v') :: d' =>
      if String.eqb k k' then (k, v) :: d' else (k', v') :: setitem d' k v
  end.

(** The two marks a table cell can hold: the white check mark and the
    cross mark. *)
Inductive mark : Type := check_mark | cross_mark.

(** The value of a cell: a file name or a mark. *)
Inductive entry : Type :=
| text_entry (s : string)
| mark_entry (m : mark).

(** A [pandas.DataFrame] of such cells: its column labels and its rows,
    each row a mapping from labels to cells. *)
Record DataFrame : Type := mkFrame {
  columns : list string;
  rows : list (dict entry)
}.

(** [pd.concat([df, pd.DataFrame([row])], ignore_index=True)]: the row goes
    last; labels of the row that the frame lacks are added after the
    frame's own. *)
Definition concat_row (df : DataFrame) (row : dict entry) : DataFrame :=
  mkFrame
    (columns df ++ filter (fun k => negb (PyList.mem k (columns df))) (keys row))%list
    (rows df ++ [row])%list.

(** The cell of a row under a label. *)
Definition cell_at (row : dict entry) (label : string) : option entry :=
  lookup row label.

(** What one block of the page ends up showing. *)
Inductive shown (T : Type) : Type :=
| table (t : T)
| info (msg : string)
| plain (msg : string).

Arguments table {T} t.
Arguments info {T} msg.
Arguments plain {T} msg.

(** The row of one resume: the key "Resume", then one key per skill of the
    header, marked by [mark_of]. *)
Definition mark_row (file : string) (mark_of : string -> mark)
    (all_skills_union : list string) : dict entry :=
  fold_left (fun row skill => setitem row skill (mark_entry (mark_of skill)))
            all_skills_union
            [("Resume", text_entry file)].

(* ------------------------------------------------------------------ *)
(** ** Module 1, after the loop *)

(** [st.selectbox(..., key=file.name)]: a key already used in this run of
    the script is refused. *)
Definition selectbox_key (used : list string) (key : string) : result unit :=
  if PyList.mem key used then Raise (DuplicateWidgetID key) else Ok tt.

(** The loop over the uploaded files, given the keys used so far; each
    file comes with the role picked in its select box.  The first
    exception ends the run. *)
Fixpoint resume_results_from (used : list string)
    (uploaded_files : list (uploaded_file * string))
    : result (list ResumeAnalysis) :=
  match uploaded_files with
  | [] => Ok []
  | (file, role) :: rest =>
      _ <- selectbox_key used (file_name_of file) ;;
      text <- extract_text_from_pdf file ;;
      r <- analyse (file_name_of file) role text ;;
      rs <- resume_results_from (file_name_of file :: used) rest ;;
      Ok (r :: rs)
  end.

Definition resume_results (uploaded_files : list (uploaded_file * string))
    : result (list ResumeAnalysis) :=
  resume_results_from [] uploaded_files.


(** [sorted(list({s for r in resume_results for s in r["Missing Skills"]}))] *)
Definition missing_union (results : list ResumeAnalysis) : list string :=
  PyList.sorted (PyList.set_list (flat_map missing_skills results)).

(** The row of the skill gap tracker for one resume. *)
Definition gap_row (all_skills_union : list string) (r : ResumeAnalysis)
    : dict entry :=
  mark_row (resume_file r)
    (fun skill => if PyList.mem skill (missing_skills r)
                  then cross_mark else check_mark)
    all_skills_union.

(** The skill gap tracker.  Like the rest of module 1 it runs only under
    [if uploaded_files:], on a non-empty upload. *)
Definition skill_gap_tracker (results : list ResumeAnalysis) : shown DataFrame :=
  let all_skills_union := missing_union results in
  if PyList.truthy all_skills_union then
    table (fold_left (fun df_gap r => concat_row df_gap (gap_row all_skills_union r))
                     results
                     (mkFrame ("Resume" :: all_skills_union) []))
  else info "No missing skills across uploaded resumes".

(** [sorted(list({s for r in resume_results for s in r["Detected Skills"]}))] *)
Definition overall_skills (results : list ResumeAnalysis) : list string :=
  PyList.sorted (PyList.set_list (flat_map detected_skills results)).

(** The rows collected for skills that have a learning link, as pairs
    (skill, resource). *)
Definition recommend (skill_list : list string) : list (string * string) :=
  flat_map (fun skill =>
              match lookup learning_links skill with
              | Some resource => [(skill, resource)]
              | None => []
              end) skill_list.

(** The learning recommendations of module 1, under the same guard. *)
Definition learning_recommendations (results : list ResumeAnalysis)
    : shown (list (string * string)) :=
  let rec_table := recommend (overall_skills results) in
  if PyList.truthy rec_table then table rec_table
  else plain "No recommendations available".

(* ------------------------------------------------------------------ *)
(** ** Modules 3 to 5 *)

(** One entry of [resumes_data]. *)
Record ResumeSkills : Type := mkSkills {
  data_file : string;
  data_skills : list string
}.

(** The skills of a PDF that was read. *)
Definition skills_of (doc : upload) : list string :=
  extract_skills (document_text doc).

(** The loop that fills [resumes_data]; the first unreadable file ends
    it. *)
Fixpoint resumes_data (uploaded_files : list uploaded_file)
    : result (list ResumeSkills) :=
  match uploaded_files with
  | [] => Ok []
  | file :: rest =>
      text <- extract_text_from_pdf file ;;
      data <- resumes_data rest ;;
      Ok (mkSkills (file_name_of file) (extract_skills text) :: data)
  end.

(** What that loop leaves when every file was read. *)
Definition data_of (docs : list upload) : list ResumeSkills :=
  map (fun doc => mkSkills (upload_name doc) (skills_of doc)) docs.

(** The row of the comparison table for one resume. *)
Definition comparison_row (all_skills_union : list string) (r : ResumeSkills)
    : dict entry :=
  mark_row (data_file r)
    (fun skill => if PyList.mem skill (data_skills r)
                  then check_mark else cross_mark)
    all_skills_union.

(** [sorted(list({s for r in resumes_data for s in r["skills"]}))] *)
Definition skills_union (data : list ResumeSkills) : list string :=
  PyList.sorted (PyList.set_list (flat_map data_skills data)).

(** The comparison table built from [resumes_data]. *)
Definition comparison_table (data : list ResumeSkills) : DataFrame :=
  let all_skills_union := skills_union data in
  fold_left (fun df r => concat_row df (comparison_row all_skills_union r))
            data
            (mkFrame ("Resume" :: all_skills_union) []).

(** Module 3: the comparison table, or the request for more files.  No
    file is read before the guard. *)
Definition resume_comparison (uploaded_files : list uploaded_file)
    : result (shown DataFrame) :=
  if PyList.truthy uploaded_files && (2 <=? PyList.len uploaded_files)%Z then
    data <- resumes_data uploaded_files ;;
    Ok (table (comparison_table data))
  else Ok (info "Upload at least 2 resumes to compare.").

(** Module 4: the learning hub, for the skills picked in the multiselect. *)
Definition learning_hub (selected_skills : list string)
    : shown (list (string * string)) :=
  let recommended := recommend selected_skills in
  if PyList.truthy recommended then table recommended
  else info "Select skills to see learning resources".

(** Module 5: the bullet lines under the heading. *)
Definition interview_prep (target_job : string) : list string :=
  map (fun q => "- " ++ q) (dict_get interview_qs target_job []).

(** The number of rows of a frame that hold [m] under a label. *)
Definition count_mark (m : mark) (label : string) (df : DataFrame) : nat :=
  List.length
    (filter (fun row => match cell_at row label with
                        | Some (mark_entry check_mark) =>
                            match m with check_mark => true | cross_mark => false end
                        | Some (mark_entry cross_mark) =>
                            match m with check_mark => false | cross_mark => true end
                        | _ => false
                        end) (rows df)).

(* ------------------------------------------------------------------ *)
(** ** Inputs used in the statements *)

(** A text naming every skill of the catalog. *)
Definition full_text : string := PyStr.join ", " all_skills.

(** A resume of a software engineer who also lists two skills of other
    roles. *)
Definition engineer_text : string :=
  "Skills: Java, C++, Data Structures, Algorithms, Python, SQL".

(** A text whose only mention of Java is inside the token JavaScript. *)
Definition frontend_text : string := "Built JavaScript dashboards".

(** A form with every field filled in. *)
Definition filled_form : ResumeForm :=
  mkForm "Ada Lovelace" "ada@example.org" ["Python"; "SQL"] "Data Analyst"
         "Analyst with a taste for engines.".

(** The same form with the summary left blank. *)
Definition blank_summary_form : ResumeForm :=
  mkForm "Ada Lovelace" "ada@example.org" ["Python"; "SQL"] "Data Analyst" "".

(* ------------------------------------------------------------------ *)
(** ** Sanity checks of the model on concrete inputs *)

Example all_skills_value :
  all_skills =
  [ "Algorithms"; "C++"; "CSS"; "Data Structures"; "Deep Learning"; "Excel";
    "HTML"; "Java"; "JavaScript"; "Machine Learning"; "Power BI"; "PyTorch";
    "Python"; "React"; "SQL"; "Statistics"; "TensorFlow" ].
Proof. vm_compute. reflexivity. Qed.

Example lower_example : PyStr.lower "Power BI & C++" = "power bi & c++".
Proof. reflexivity. Qed.

Example extract_example :
  extract_skills "Experienced in python and Excel reporting" = ["Excel"; "Python"].
Proof. vm_compute. reflexivity. Qed.

Example suggest_example :
  suggest_skills ["Excel"; "Python"] "Data Analyst" = ["SQL"; "Power BI"; "Statistics"].
Proof. reflexivity. Qed.

Example job_fit_example :
  job_fit ["Excel"; "Python"] "Data Analyst" = Ok 40%Z.
Proof. vm_compute. reflexivity. Qed.

(** Binary64 rounding is visible in the model: [int(0.29 * 100)] is 28. *)
Example float_rounding_example : percent 29 100 = Ok 28%Z.
Proof. vm_compute. reflexivity. Qed.

(* ------------------------------------------------------------------ *)
(** ** Facts about strings *)

Section StringFacts.

Lemma append_assoc (a b c : string) : (a ++ b) ++ c = a ++ (b ++ c).
Proof. induction a as [|x a IH]; simpl; [reflexivity | now rewrite IH]. Qed.

Lemma append_nil_r (a : string) : a ++ "" = a.
Proof. induction a as [|x a IH]; simpl; [reflexivity | now rewrite IH]. Qed.

Lemma lower_app (a b : string) :
  PyStr.lower (a ++ b) = PyStr.lower a ++ PyStr.lower b.
Proof. induction a as [|x a IH]; simpl; [reflexivity | now rewrite IH]. Qed.

(** [startswith] decides "is a prefix of". *)
Lemma startswith_spec (p s : string) :
  PyStr.startswith p s = true <-> exists rest, s = p ++ rest.
Proof.
  revert s; induction p as [|a p IH]; intros s; simpl.
  - split; [intros _; now exists s | reflexivity].
  - destruct s as [|b s].
    + split; [discriminate | intros [r Hr]; discriminate].
    + rewrite andb_true_iff, Ascii.eqb_eq, IH. split.
      * intros [-> [r ->]]. now exists r.
      * intros [r Hr]. injection Hr as -> ->. split; [reflexivity | now exists r].
Qed.

(** [contains] decides "occurs as a contiguous substring". *)
Lemma contains_spec (sub s : string) :
  PyStr.contains sub s = true <-> Substring sub s.
Proof.
  unfold Substring. induction s as [|c s IH].
  - simpl. rewrite orb_false_r, startswith_spec. split.
    + intros [r Hr]. now exists "", r.
    + intros [pre [post H]]. destruct pre; [now exists post | discriminate].
  - cbn [PyStr.contains]. rewrite orb_true_iff, startswith_spec, IH. split.
    + intros [[r Hr] | [pre [post H]]].
      * now exists "", r.
      * exists (String c pre), post. simpl. now rewrite H.
    + intros [[|c' pre] [post H]].
      * left. now exists post.
      * right. simpl in H. injection H as _ H. now exists pre, post.
Qed.

Lemma Substring_app_r (sub s u : string) :
  Substring sub s -> Substring sub (s ++ u).
Proof.
  intros [pre [post ->]]. exists pre, (post ++ u).
  now rewrite !append_assoc.
Qed.

End StringFacts.

(* ------------------------------------------------------------------ *)
(** ** Facts about [sorted] *)

Section SortFacts.

Lemma str_le_total a b : str_le a b \/ str_le b a.
Proof. apply String.leb_total. Qed.

Lemma str_le_antisym a b : str_le a b -> str_le b a -> a = b.
Proof. apply String.leb_antisym. Qed.

Lemma str_le_lt_eq a b : str_le a b <-> String_as_OT.lt a b \/ a = b.
Proof.
  unfold str_le, String.leb. rewrite <- String_as_OT.cmp_lt, <- String_as_OT.cmp_eq.
  unfold String_as_OT.cmp. destruct (a ?= b)%string; split; intros H;
    try discriminate; auto; destruct H; discriminate.
Qed.

Lemma str_le_trans a b c : str_le a b -> str_le b c -> str_le a c.
Proof.
  rewrite !str_le_lt_eq. intros [H1 | ->] [H2 | ->]; auto.
  left. eapply String_as_OT.lt_trans; eassumption.
Qed.

Lemma insert_perm x l : Permutation (PyList.insert x l) (x :: l).
Proof.
  induction l as [|y l IH]; simpl; [reflexivity |].
  destruct (x <=? y)%string; [reflexivity |].
  rewrite IH. apply perm_swap.
Qed.

Lemma sorted_perm l : Permutation (PyList.sorted l) l.
Proof.
  induction l as [|x l IH]; simpl; [constructor |].
  rewrite insert_perm. now constructor.
Qed.

Lemma insert_sorted x l :
  StronglySorted str_le l -> StronglySorted str_le (PyList.insert x l).
Proof.
  induction 1 as [|y l Hs IH Hall]; simpl.
  - repeat constructor.
  - destruct (x <=? y)%string eqn:E.
    + constructor; [now constructor |].
      constructor; [exact E |].
      eapply Forall_impl; [| exact Hall]. intros z Hz.
      eapply str_le_trans; eassumption.
    + constructor; [exact IH |].
      assert (Hyx : str_le y x).
      { destruct (str_le_total x y) as [H | H]; [| exact H].
        unfold str_le in H. congruence. }
      rewrite Forall_forall in *. intros z Hz.
      apply (Permutation_in _ (insert_perm x l)) in Hz.
      destruct Hz as [<- | Hz]; auto.
Qed.

Lemma sorted_sorted l : StronglySorted str_le (PyList.sorted l).
Proof.
  induction l as [|x l IH]; simpl; [constructor | now apply insert_sorted].
Qed.

(** A list has one sorted arrangement only. *)
Lemma sorted_arrangement_unique l1 l2 :
  StronglySorted str_le l1 -> StronglySorted str_le l2 ->
  Permutation l1 l2 -> l1 = l2.
Proof.
  intros H1; revert l2. induction H1 as [|a l1 Hs1 IH Ha]; intros l2 H2 HP.
  - apply Permutation_nil in HP. now subst.
  - destruct H2 as [|b l2 Hs2 Hb].
    + apply Permutation_sym, Permutation_nil in HP. discriminate.
    + assert (a = b) as <-.
      { rewrite Forall_forall in Ha, Hb.
        assert (Hin_b : In b (a :: l1))
          by (apply (Permutation_in _ (Permutation_sym HP)); now left).
        assert (Hin_a : In a (b :: l2))
          by (apply (Permutation_in _ HP); now left).
        destruct Hin_b as [E | Hin_b]; [exact E |].
        destruct Hin_a as [E | Hin_a]; [now symmetry |].
        apply str_le_antisym; auto. }
      f_equal. apply IH; [exact Hs2 |].
      eapply Permutation_cons_inv; exact HP.
Qed.

Lemma sorted_permutation_invariant l1 l2 :
  Permutation l1 l2 -> PyList.sorted l1 = PyList.sorted l2.
Proof.
  intros HP. apply sorted_arrangement_unique; try apply sorted_sorted.
  rewrite !sorted_perm. exact HP.
Qed.

Lemma sorted_In x l : In x (PyList.sorted l) <-> In x l.
Proof.
  split; apply Permutation_in; [| symmetry]; apply sorted_perm.
Qed.

Lemma sorted_NoDup l : NoDup l -> NoDup (PyList.sorted l).
Proof.
  intros H. eapply Permutation_NoDup; [| exact H]. symmetry. apply sorted_perm.
Qed.

Lemma sorted_length l : List.length (PyList.sorted l) = List.length l.
Proof. apply Permutation_length, sorted_perm. Qed.

(** Any two enumerations of one set sort to the same list. *)
Lemma sorted_set_iteration iter1 iter2 l :
  PyList.set_iteration iter1 -> PyList.set_iteration iter2 ->
  PyList.sorted (iter1 l) = PyList.sorted (iter2 l).
Proof.
  intros H1 H2. apply sorted_permutation_invariant.
  destruct (H1 l) as [N1 I1], (H2 l) as [N2 I2].
  apply NoDup_Permutation; auto.
  intros x. now rewrite I1, I2.
Qed.

Lemma set_list_iteration : PyList.set_iteration PyList.set_list.
Proof.
  intros l. split; [apply NoDup_nodup |].
  intros x. apply nodup_In.
Qed.

End SortFacts.

(* ------------------------------------------------------------------ *)
(** ** Facts about the catalog and the helper functions *)

Section HelperFacts.

Lemma mem_In x l : PyList.mem x l = true <-> In x l.
Proof.
  unfold PyList.mem. rewrite existsb_exists. split.
  - intros [y [Hy E]]. apply String.eqb_eq in E. now subst.
  - intros H. exists x. split; [exact H | apply String.eqb_refl].
Qed.

Lemma lookup_In {V} (d : dict V) k v : lookup d k = Some v -> In (k, v) d.
Proof.
  induction d as [|[k' v'] d IH]; simpl; [discriminate |].
  destruct (String.eqb_spec k k') as [-> | _].
  - intros [= ->]. now left.
  - intros H. right. auto.
Qed.

Lemma lookup_None_keys {V} (d : dict V) k : lookup d k = None <-> ~ In k (keys d).
Proof.
  induction d as [|[k' v'] d IH]; simpl.
  - tauto.
  - destruct (String.eqb_spec k k') as [-> | N].
    + split; [discriminate | intros H; exfalso; apply H; now left].
    + rewrite IH. split; [intros H [E | I]; [now apply N | contradiction] | tauto].
Qed.

Lemma all_skills_NoDup : NoDup all_skills.
Proof. apply sorted_NoDup, NoDup_nodup. Qed.

Lemma all_skills_length : List.length all_skills = 17%nat.
Proof. now rewrite all_skills_value. Qed.

Lemma found_skills_In s t :
  In s (found_skills t) <->
  In s all_skills /\ PyStr.contains (PyStr.lower s) (PyStr.lower t) = true.
Proof. unfold found_skills. cbv zeta. now rewrite filter_In. Qed.

Lemma extract_skills_with_In iter s t :
  PyList.set_iteration iter ->
  (In s (extract_skills_with iter t) <->
   In s all_skills /\ Substring (PyStr.lower s) (PyStr.lower t)).
Proof.
  intros Hiter. unfold extract_skills_with.
  rewrite sorted_In. destruct (Hiter (found_skills t)) as [_ Hin].
  now rewrite Hin, found_skills_In, contains_spec.
Qed.

Lemma extract_skills_In s t :
  In s (extract_skills t) <->
  In s all_skills /\ Substring (PyStr.lower s) (PyStr.lower t).
Proof. apply extract_skills_with_In, set_list_iteration. Qed.

Lemma extract_skills_NoDup t : NoDup (extract_skills t).
Proof. apply sorted_NoDup, NoDup_nodup. Qed.

Lemma extract_skills_length t : (List.length (extract_skills t) <= 17)%nat.
Proof.
  rewrite <- all_skills_length. apply NoDup_incl_length.
  - apply extract_skills_NoDup.
  - intros s Hs. now apply extract_skills_In in Hs.
Qed.

Lemma rev_set_list_iteration : PyList.set_iteration (fun l => rev (PyList.set_list l)).
Proof.
  intros l. destruct (set_list_iteration l) as [N I]. split.
  - now apply NoDup_rev.
  - intros x. now rewrite <- in_rev.
Qed.

End HelperFacts.

(* ------------------------------------------------------------------ *)
(** ** Facts about the fit expression *)

Section FitFacts.

Open Scope Z_scope.

(** The length of every required-skill list of the catalog is 4 or 5. *)
Lemma required_length role required :
  lookup job_roles role = Some required ->
  PyList.len required = 4 \/ PyList.len required = 5.
Proof.
  intros H. apply lookup_In in H. simpl in H.
  repeat (destruct H as [[= <- <-] | H]; [vm_compute; auto |]).
  contradiction.
Qed.

Lemma percent_exact_4 : percent_exact_on 4 (map Z.of_nat (seq 0 18)) = true.
Proof. vm_compute. reflexivity. Qed.

Lemma percent_exact_5 : percent_exact_on 5 (map Z.of_nat (seq 0 18)) = true.
Proof. vm_compute. reflexivity. Qed.

(** On the lengths the catalog allows, the two float roundings and the
    truncation give the integer floor. *)
Lemma percent_floor (n : nat) (b : Z) :
  (n <= 17)%nat -> b = 4 \/ b = 5 ->
  percent (Z.of_nat n) b = Ok (100 * Z.of_nat n / b).
Proof.
  intros Hn Hb.
  assert (Hin : In (Z.of_nat n) (map Z.of_nat (seq 0 18))).
  { apply in_map, in_seq. lia. }
  assert (Hall : percent_exact_on b (map Z.of_nat (seq 0 18)) = true).
  { destruct Hb as [-> | ->]; [apply percent_exact_4 | apply percent_exact_5]. }
  unfold percent_exact_on in Hall. rewrite forallb_forall in Hall.
  specialize (Hall _ Hin).
  destruct (percent (Z.of_nat n) b) as [v | e]; [| discriminate].
  apply Z.eqb_eq in Hall. now subst.
Qed.

(** For a catalog role the expression reduces to [percent]. *)
Lemma job_fit_known skills role required :
  lookup job_roles role = Some required -> required <> [] ->
  job_fit skills role = percent (PyList.len skills) (PyList.len required).
Proof.
  intros H Hne. unfold job_fit, getitem. rewrite H. simpl.
  destruct required; [congruence | reflexivity].
Qed.

Lemma job_fit_extract text role required :
  lookup job_roles role = Some required -> required <> [] ->
  job_fit (extract_skills text) role =
  Ok (100 * PyList.len (extract_skills text) / PyList.len required).
Proof.
  intros H Hne. rewrite (job_fit_known _ _ _ H Hne).
  apply percent_floor; [apply extract_skills_length | eapply required_length; eauto].
Qed.

Lemma extract_full_text : extract_skills full_text = all_skills.
Proof. vm_compute. reflexivity. Qed.



End FitFacts.

(* ------------------------------------------------------------------ *)
(** ** Skill extraction *)

Section ExtractSkills.

(** C1. For a skill [s] of the catalog and any text [t], [s] is in
    [extract_skills t] exactly when the lowercased [s] occurs as a
    contiguous substring of the lowercased [t]; whatever stands before and
    after an occurrence of [s] in the text, [s] is detected (no word
    boundary is looked at). *)
Theorem extract_skills_iff_substring (s t : string) :
  In s all_skills ->
  (In s (extract_skills t) <-> Substring (PyStr.lower s) (PyStr.lower t))
  /\ (forall pre post, In s (extract_skills (pre ++ s ++ post))).
Proof.
  intros Hs. split.
  - rewrite extract_skills_In. tauto.
  - intros pre post. apply extract_skills_In. split; [exact Hs |].
    exists (PyStr.lower pre), (PyStr.lower post). now rewrite !lower_app.
Qed.

Lemma extract_skills_iff_substring_witness :
  In "SQL" all_skills /\
  (In "SQL" (extract_skills "uses MySQL daily")
   <-> Substring (PyStr.lower "SQL") (PyStr.lower "uses MySQL daily")) /\
  (forall pre post, In "SQL" (extract_skills (pre ++ "SQL" ++ post))).
Proof.
  assert (H : In "SQL" all_skills) by (vm_compute; tauto).
  split; [exact H | exact (extract_skills_iff_substring "SQL" "uses MySQL daily" H)].
Defined.

(** C6. [extract_skills] is deterministic: two calls on the same text
    return the same list, whatever order each call iterates its
    intermediate set in. *)
Theorem extract_skills_deterministic
    (iter1 iter2 : list string -> list string) (t1 t2 : string) :
  PyList.set_iteration iter1 -> PyList.set_iteration iter2 ->
  t1 = t2 ->
  extract_skills_with iter1 t1 = extract_skills_with iter2 t2.
Proof.
  intros H1 H2 <-. unfold extract_skills_with.
  now apply sorted_set_iteration.
Qed.

Lemma extract_skills_deterministic_witness :
  extract_skills_with PyList.set_list "React and CSS"
  = extract_skills_with (fun l => rev (PyList.set_list l)) "React and CSS".
Proof.
  apply (extract_skills_deterministic PyList.set_list
           (fun l => rev (PyList.set_list l)) "React and CSS" "React and CSS").
  - exact set_list_iteration.
  - exact rev_set_list_iteration.
  - reflexivity.
Defined.

(** C7. There is a text with the token "JavaScript" and no token "Java",
    in any capitalisation, in which [extract_skills] still finds the skill
    "Java". *)
Theorem java_inside_javascript :
  exists t : string,
    In "JavaScript" (PyStr.words t)
    /\ ~ In "java" (map PyStr.lower (PyStr.words t))
    /\ In "Java" (extract_skills t).
Proof.
  exists frontend_text. vm_compute. repeat split; try tauto.
  intros H. repeat (destruct H as [H | H]; [discriminate |]). exact H.
Qed.

(** C9. Appending text never removes a detected skill. *)
Theorem extract_skills_monotone (t u s : string) :
  In s (extract_skills t) -> In s (extract_skills (t ++ u)).
Proof.
  rewrite !extract_skills_In, lower_app. intros [Hs Hsub].
  split; [exact Hs | now apply Substring_app_r].
Qed.

Lemma extract_skills_monotone_witness :
  In "Excel" (extract_skills "Excel macros")
  /\ In "Excel" (extract_skills ("Excel macros" ++ " and Python")).
Proof.
  assert (H : In "Excel" (extract_skills "Excel macros")) by (vm_compute; tauto).
  split; [exact H | exact (extract_skills_monotone "Excel macros" " and Python" "Excel" H)].
Defined.

End ExtractSkills.

(* ------------------------------------------------------------------ *)
(** ** Missing skills *)

Section SuggestSkills.

(** C4. [suggest_skills] returns the role's required skills, in the
    role's order, without those that are in the detected list; nothing it
    returns is in the detected list; for a role outside the catalog it
    returns the empty list (it is a total function: nothing is raised). *)
Theorem suggest_skills_spec (found : list string) (role : string) :
  (forall required, lookup job_roles role = Some required ->
     suggest_skills found role
     = filter (fun s => if in_dec string_dec s found then false else true) required)
  /\ (forall s, In s (suggest_skills found role) -> ~ In s found)
  /\ (lookup job_roles role = None -> suggest_skills found role = []).
Proof.
  unfold suggest_skills, dict_get. repeat split.
  - intros required ->. apply filter_ext. intros s.
    destruct (in_dec string_dec s found) as [Hin | Hnot].
    + apply mem_In in Hin. now rewrite Hin.
    + destruct (PyList.mem s found) eqn:E; [| reflexivity].
      apply mem_In in E. contradiction.
  - intros s Hs Hin. apply filter_In in Hs. destruct Hs as [_ Hs].
    apply mem_In in Hin. now rewrite Hin in Hs.
  - now intros ->.
Qed.

(** C10. Every required skill of a catalog role is in the detected list
    or in the list [suggest_skills] returns. *)
Theorem suggest_skills_cover (found : list string) (role : string)
    (required : list string) (s : string) :
  lookup job_roles role = Some required ->
  In s required ->
  In s found \/ In s (suggest_skills found role).
Proof.
  intros Hl Hs. unfold suggest_skills, dict_get. rewrite Hl.
  destruct (PyList.mem s found) eqn:E.
  - left. now apply mem_In.
  - right. apply filter_In. split; [exact Hs | now rewrite E].
Qed.

Lemma suggest_skills_cover_witness :
  In "Power BI" ["Excel"; "Python"]
  \/ In "Power BI" (suggest_skills ["Excel"; "Python"] "Data Analyst").
Proof.
  apply (suggest_skills_cover ["Excel"; "Python"] "Data Analyst"
           ["Python"; "SQL"; "Excel"; "Power BI"; "Statistics"] "Power BI").
  - reflexivity.
  - simpl. tauto.
Defined.

End SuggestSkills.

(* ------------------------------------------------------------------ *)
(** ** Job fit *)

Section JobFit.

Open Scope Z_scope.

(** C2. For a catalog role with at least one required skill, the fit is
    the floor of 100 times the number of all detected skills over the
    number of required skills; the count is of every detected skill, so
    some text drives the fit above 100. *)
Theorem job_fit_formula (role : string) (required : list string) :
  lookup job_roles role = Some required -> required <> [] ->
  (forall text,
     job_fit (extract_skills text) role
     = Ok (100 * PyList.len (extract_skills text) / PyList.len required))
  /\ (exists text v, job_fit (extract_skills text) role = Ok v /\ 100 < v).
Proof.
  intros Hl Hne. split.
  - intros text. now apply job_fit_extract.
  - exists full_text. eexists. split; [exact (job_fit_extract _ _ _ Hl Hne) |].
    rewrite extract_full_text.
    destruct (required_length _ _ Hl) as [-> | ->]; vm_compute; reflexivity.
Qed.

Lemma job_fit_formula_witness :
  (forall text,
     job_fit (extract_skills text) "Data Analyst"
     = Ok (100 * PyList.len (extract_skills text)
           / PyList.len ["Python"; "SQL"; "Excel"; "Power BI"; "Statistics"]))
  /\ (exists text v, job_fit (extract_skills text) "Data Analyst" = Ok v /\ 100 < v).
Proof.
  apply (job_fit_formula "Data Analyst"
           ["Python"; "SQL"; "Excel"; "Power BI"; "Statistics"]).
  - reflexivity.
  - discriminate.
Defined.

(** C3, at an input where it fails.  The resume lists the four skills of
    a software engineer and two more: nothing is missing, and the stored
    fit is 150, outside 0..100. *)
Lemma job_fit_above_100 :
  exists r,
    analyse "cv.pdf" "Software Engineer" engineer_text = Ok r
    /\ detected_skills r
       = ["Algorithms"; "C++"; "Data Structures"; "Java"; "Python"; "SQL"]
    /\ missing_skills r = []
    /\ job_fit_pct r = 150
    /\ ~ (0 <= job_fit_pct r <= 100).
Proof.
  eexists. split; [vm_compute; reflexivity |].
  cbn [detected_skills missing_skills job_fit_pct].
  repeat split. lia.
Qed.

(** C3, as the code has it.  For every text and every role of the
    catalog the analysis succeeds and stores an integer fit between 0 and
    425; the fit is at most 100 exactly when no more skills were detected
    than the role requires. *)
Theorem job_fit_bounds (file role text : string) (required : list string) :
  lookup job_roles role = Some required ->
  exists r,
    analyse file role text = Ok r
    /\ 0 <= job_fit_pct r <= 425
    /\ (job_fit_pct r <= 100
        <-> PyList.len (detected_skills r) <= PyList.len required).
Proof.
  intros Hl.
  assert (Hne : required <> []).
  { intros ->. destruct (required_length _ _ Hl); discriminate. }
  unfold analyse. rewrite (job_fit_extract _ _ _ Hl Hne). cbn [bind].
  eexists. split; [reflexivity |]. cbn [job_fit_pct detected_skills].
  pose proof (extract_skills_length text) as Hlen.
  destruct (required_length _ _ Hl) as [E | E]; rewrite E; unfold PyList.len;
    Z.div_mod_to_equations; lia.
Qed.

Lemma job_fit_bounds_witness :
  exists r,
    analyse "cv.pdf" "Web Developer" full_text = Ok r
    /\ 0 <= job_fit_pct r <= 425
    /\ (job_fit_pct r <= 100
        <-> PyList.len (detected_skills r)
            <= PyList.len ["HTML"; "CSS"; "JavaScript"; "React"; "SQL"]).
Proof.
  apply (job_fit_bounds "cv.pdf" "Web Developer" full_text
           ["HTML"; "CSS"; "JavaScript"; "React"; "SQL"]).
  reflexivity.
Defined.

(** The upper bound is reached. *)
Example job_fit_425 :
  job_fit (extract_skills full_text) "Software Engineer" = Ok 425.
Proof. vm_compute. reflexivity. Qed.






End JobFit.

(* ------------------------------------------------------------------ *)
(** ** Create Resume *)

Section CreateResume.

Lemma str_truthy_false s : PyStr.truthy s = false <-> s = "".
Proof. destruct s; simpl; split; congruence. Qed.

Lemma list_truthy_false {A} (l : list A) : PyList.truthy l = false <-> l = [].
Proof. destruct l; simpl; split; congruence. Qed.

(** C8. When the name, the email, the skills or the summary is empty, the
    handler shows the warning and hands out no document; a document is
    handed out only when all four are filled in (and, through the script
    branch, only when the button was pressed). *)
Theorem generate_resume_validation (f : ResumeForm) :
  (name f = "" \/ email f = "" \/ skills f = [] \/ summary f = "" ->
     generate_resume f = [warning "Please fill all fields to generate the resume."]
     /\ reports_failure (generate_resume f) = true
     /\ produces_document (generate_resume f) = false)
  /\ (produces_document (generate_resume f) = true <->
      name f <> "" /\ email f <> "" /\ skills f <> [] /\ summary f <> "")
  /\ (forall clicked, produces_document (create_resume clicked f) = true ->
      clicked = true
      /\ name f <> "" /\ email f <> "" /\ skills f <> [] /\ summary f <> "").
Proof.
  assert (Hdoc : produces_document (generate_resume f) = true <->
                 name f <> "" /\ email f <> "" /\ skills f <> [] /\ summary f <> "").
  { unfold generate_resume.
    destruct (name f), (email f), (skills f), (summary f); simpl;
      split; try discriminate; try (intros [? [? [? ?]]]; congruence);
      intros _; repeat split; discriminate. }
  split; [| split].
  - intros Hempty.
    assert (E : generate_resume f
                = [warning "Please fill all fields to generate the resume."]).
    { unfold generate_resume.
      destruct Hempty as [H | [H | [H | H]]]; rewrite H; simpl;
        rewrite ?orb_true_r; reflexivity. }
    rewrite E. repeat split.
  - exact Hdoc.
  - intros [|] H; simpl in H; [| discriminate].
    split; [reflexivity | now apply Hdoc].
Qed.

Lemma generate_resume_validation_witness :
  generate_resume blank_summary_form
  = [warning "Please fill all fields to generate the resume."]
  /\ produces_document (generate_resume filled_form) = true.
Proof.
  destruct (generate_resume_validation blank_summary_form) as [Hwarn _].
  destruct (generate_resume_validation filled_form) as [_ [Hdoc _]].
  split.
  - apply Hwarn. right; right; right. reflexivity.
  - apply Hdoc. repeat split; discriminate.
Defined.

End CreateResume.

(* ------------------------------------------------------------------ *)
(** ** More on skill extraction *)

Section ExtractMore.

Lemma length_append (a b : string) :
  String.length (a ++ b) = (String.length a + String.length b)%nat.
Proof. induction a as [|x a IH]; simpl; [reflexivity | now rewrite IH]. Qed.

Lemma lower_length (s : string) : String.length (PyStr.lower s) = String.length s.
Proof. induction s as [|x s IH]; simpl; [reflexivity | now rewrite IH]. Qed.

Lemma Substring_length (sub s : string) :
  Substring sub s -> (String.length sub <= String.length s)%nat.
Proof. intros [pre [post ->]]. rewrite !length_append. lia. Qed.

Lemma lower_char_idempotent (c : ascii) :
  PyStr.lower_char (PyStr.lower_char c) = PyStr.lower_char c.
Proof. destruct c as [[] [] [] [] [] [] [] []]; reflexivity. Qed.

Lemma lower_idempotent (s : string) : PyStr.lower (PyStr.lower s) = PyStr.lower s.
Proof.
  induction s as [|x s IH]; simpl; [reflexivity |].
  now rewrite lower_char_idempotent, IH.
Qed.

Lemma Substring_app_l (sub s u : string) :
  Substring sub s -> Substring sub (u ++ s).
Proof.
  intros [pre [post ->]]. exists (u ++ pre), post.
  now rewrite !append_assoc.
Qed.

Lemma Substring_trans (a b c : string) :
  Substring a b -> Substring b c -> Substring a c.
Proof.
  intros [p1 [q1 ->]] [p2 [q2 ->]]. exists (p2 ++ p1), (q1 ++ q2).
  now rewrite !append_assoc.
Qed.

Lemma all_skills_min_length :
  Forall (fun s => (3 <= String.length s)%nat) all_skills.
Proof. rewrite all_skills_value. repeat constructor. Qed.

Lemma extract_skills_lower_eq (t1 t2 : string) :
  PyStr.lower t1 = PyStr.lower t2 -> extract_skills t1 = extract_skills t2.
Proof.
  intros H. unfold extract_skills, extract_skills_with, found_skills.
  cbv zeta. now rewrite H.
Qed.

(** X1. The list [extract_skills] returns is in ascending order, has no
    duplicate and holds skills of the catalog only. *)
Theorem extract_skills_sorted_catalog (t : string) :
  StronglySorted str_le (extract_skills t)
  /\ NoDup (extract_skills t)
  /\ incl (extract_skills t) all_skills.
Proof.
  split; [apply sorted_sorted |]. split; [apply extract_skills_NoDup |].
  intros s Hs. now apply extract_skills_In in Hs.
Qed.

(** X2. A text of fewer than three characters, the empty text included,
    yields no skill. *)
Theorem extract_skills_short_text (t : string) :
  (String.length t < 3)%nat -> extract_skills t = [].
Proof.
  intros Hlen. destruct (extract_skills t) as [|s l] eqn:E; [reflexivity |].
  assert (Hs : In s (extract_skills t)) by (rewrite E; now left).
  apply extract_skills_In in Hs. destruct Hs as [Hcat Hsub].
  apply Substring_length in Hsub. rewrite !lower_length in Hsub.
  pose proof all_skills_min_length as Hmin. rewrite Forall_forall in Hmin.
  specialize (Hmin s Hcat). lia.
Qed.

Lemma extract_skills_short_text_witness :
  extract_skills "" = [] /\ extract_skills "C+" = [].
Proof.
  split.
  - apply (extract_skills_short_text ""). simpl. lia.
  - apply (extract_skills_short_text "C+"). simpl. lia.
Defined.

(** X3. Detection ignores case: two texts with the same lowercase form
    yield the same skills, and lowercasing a text beforehand changes
    nothing. *)
Theorem extract_skills_case_insensitive (t1 t2 : string) :
  PyStr.lower t1 = PyStr.lower t2 ->
  extract_skills t1 = extract_skills t2
  /\ extract_skills (PyStr.lower t1) = extract_skills t2.
Proof.
  intros H. split; [now apply extract_skills_lower_eq |].
  apply extract_skills_lower_eq. now rewrite lower_idempotent.
Qed.

Lemma extract_skills_case_insensitive_witness :
  extract_skills "PYTHON and tensorflow" = extract_skills "python AND TensorFlow"
  /\ extract_skills (PyStr.lower "PYTHON and tensorflow")
     = extract_skills "python AND TensorFlow".
Proof.
  apply (extract_skills_case_insensitive
           "PYTHON and tensorflow" "python AND TensorFlow").
  reflexivity.
Defined.

(** X4. Whenever JavaScript is detected in a text, so is Java. *)
Theorem javascript_implies_java (t : string) :
  In "JavaScript" (extract_skills t) -> In "Java" (extract_skills t).
Proof.
  rewrite !extract_skills_In. intros [_ Hsub]. split.
  - rewrite all_skills_value. simpl. tauto.
  - apply Substring_trans with (b := PyStr.lower "JavaScript"); [| exact Hsub].
    exists "", "script". reflexivity.
Qed.

Lemma javascript_implies_java_witness :
  In "Java" (extract_skills "node and javascript").
Proof.
  apply (javascript_implies_java "node and javascript").
  vm_compute. tauto.
Defined.

(** X5. A text that is just the name of one catalog skill yields that
    skill alone, except for JavaScript, which yields Java as well: no other
    skill name contains another. *)
Theorem extract_skills_of_skill_name (s : string) :
  In s all_skills ->
  extract_skills s
  = if String.eqb s "JavaScript" then ["Java"; "JavaScript"] else [s].
Proof.
  rewrite all_skills_value. simpl.
  intros H.
  repeat (destruct H as [<- | H]; [vm_compute; reflexivity |]).
  contradiction.
Qed.

Lemma extract_skills_of_skill_name_witness :
  extract_skills "Power BI" = ["Power BI"].
Proof.
  apply (extract_skills_of_skill_name "Power BI").
  vm_compute. tauto.
Defined.

(** X6. A skill detected in either of two texts is detected in their
    concatenation. *)
Theorem extract_skills_concat (t u s : string) :
  In s (extract_skills t) \/ In s (extract_skills u) ->
  In s (extract_skills (t ++ u)).
Proof.
  rewrite !extract_skills_In, lower_app.
  intros [[Hs Hsub] | [Hs Hsub]]; (split; [exact Hs |]).
  - now apply Substring_app_r.
  - now apply Substring_app_l.
Qed.

Lemma extract_skills_concat_witness :
  In "React" (extract_skills ("Python. " ++ "React hooks")).
Proof.
  apply (extract_skills_concat "Python. " "React hooks" "React").
  right. vm_compute. tauto.
Defined.

End ExtractMore.

(* ------------------------------------------------------------------ *)
(** ** The text of a PDF *)

Section PdfText.

Lemma fold_append_acc (pages : list string) (acc : string) :
  fold_left (fun text page => text ++ page) pages acc
  = acc ++ fold_left (fun text page => text ++ page) pages "".
Proof.
  revert acc. induction pages as [|p pages IH]; intros acc; simpl.
  - now rewrite append_nil_r.
  - rewrite (IH (acc ++ p)), (IH p). now rewrite append_assoc.
Qed.

Lemma document_text_cons (n : string) (p : string) (pages : list string) :
  document_text (mkUpload n (p :: pages))
  = p ++ document_text (mkUpload n pages).
Proof. unfold document_text. simpl. apply fold_append_acc. Qed.

Lemma page_in_text (n : string) (pages : list string) (page : string) :
  In page pages -> Substring page (document_text (mkUpload n pages)).
Proof.
  induction pages as [|p pages IH]; [contradiction |].
  rewrite document_text_cons. intros [-> | Hin].
  - exists "", (document_text (mkUpload n pages)). reflexivity.
  - destruct (IH Hin) as [pre [post E]]. rewrite E.
    exists (p ++ pre), post. now rewrite append_assoc.
Qed.

Lemma lower_Substring (a b : string) :
  Substring a b -> Substring (PyStr.lower a) (PyStr.lower b).
Proof.
  intros [pre [post ->]]. exists (PyStr.lower pre), (PyStr.lower post).
  now rewrite !lower_app.
Qed.

Lemma Substring_cons (x : ascii) (sub s : string) :
  Substring sub s -> Substring sub (String x s).
Proof. intros [pre [post ->]]. now exists (String x pre), post. Qed.

(** A text without the character [c] that starts a text of the form
    [a ++ c ++ b] ends inside [a]. *)
Lemma prefix_before_char (c : ascii) (sub post a b : string) :
  ~ Substring (String c "") sub ->
  sub ++ post = a ++ String c b ->
  exists rest, a = sub ++ rest.
Proof.
  revert a. induction sub as [|x sub IH]; intros a Hc E.
  - now exists a.
  - destruct a as [|y a]; simpl in E.
    + injection E as -> _. exfalso. apply Hc. now exists "", sub.
    + injection E as -> E.
      destruct (IH a) as [rest ->]; [| exact E | now exists rest].
      intros H. apply Hc. now apply Substring_cons.
Qed.

(** An occurrence of such a text in [a ++ c ++ b] lies in [a] or in [b]. *)
Lemma Substring_around_char (c : ascii) (sub a b : string) :
  ~ Substring (String c "") sub ->
  Substring sub (a ++ String c b) ->
  Substring sub a \/ Substring sub b.
Proof.
  intros Hc [pre [post E]]. revert pre E.
  induction a as [|x a IH]; intros pre E.
  - destruct pre as [|y pre]; simpl in E.
    + destruct sub as [|z sub]; [left; now exists "", "" |].
      simpl in E. injection E as <- _. exfalso. apply Hc. now exists "", sub.
    + injection E as _ ->. right. now exists pre, post.
  - destruct pre as [|y pre].
    + left. change ("" ++ sub ++ post) with (sub ++ post) in E.
      destruct (prefix_before_char c sub post (String x a) b Hc (eq_sym E))
        as [rest ->].
      now exists "", rest.
    + simpl in E. injection E as _ E.
      destruct (IH pre E) as [H | H]; [left; now apply Substring_cons | now right].
Qed.

Lemma skill_has_no_newline (s : string) :
  In s all_skills -> ~ Substring newline (PyStr.lower s).
Proof.
  rewrite all_skills_value. intros H Hsub. apply contains_spec in Hsub.
  simpl in H.
  repeat (destruct H as [<- | H]; [vm_compute in Hsub; discriminate |]).
  contradiction.
Qed.

Lemma document_skill_on_page (n : string) (pages : list string) (s : string) :
  Forall page_text_shape pages ->
  In s all_skills ->
  Substring (PyStr.lower s) (PyStr.lower (document_text (mkUpload n pages))) ->
  exists page, In page pages /\ Substring (PyStr.lower s) (PyStr.lower page).
Proof.
  intros Hshape Hs. induction Hshape as [|p pages Hp _ IH].
  - intros Hsub. apply Substring_length in Hsub. rewrite lower_length in Hsub.
    pose proof all_skills_min_length as Hmin. rewrite Forall_forall in Hmin.
    specialize (Hmin s Hs). cbn in Hsub. lia.
  - rewrite document_text_cons. intros Hsub.
    assert (Hrest : Substring (PyStr.lower s)
                      (PyStr.lower (document_text (mkUpload n pages))) ->
                    exists page, In page (p :: pages)
                                 /\ Substring (PyStr.lower s) (PyStr.lower page)).
    { intros H. destruct (IH H) as [page [Hin Hpage]].
      exists page. split; [now right | exact Hpage]. }
    destruct Hp as [-> | [body ->]]; [now apply Hrest |].
    unfold newline in Hsub. rewrite append_assoc, lower_app in Hsub.
    cbn [append PyStr.lower] in Hsub.
    change (PyStr.lower_char (ascii_of_nat 10)) with (ascii_of_nat 10) in Hsub.
    apply Substring_around_char in Hsub; [| now apply skill_has_no_newline].
    destruct Hsub as [H | H]; [| now apply Hrest].
    exists (body ++ newline). split; [now left |].
    rewrite lower_app. now apply Substring_app_r.
Qed.

(** X7. A skill detected in the text of one page of a PDF that was read is
    detected in the text extracted from the whole file. *)
Theorem page_skill_in_document (doc : upload) (page s : string) :
  In page (upload_pages doc) ->
  In s (extract_skills page) ->
  exists text,
    extract_text_from_pdf (readable doc) = Ok text
    /\ In s (extract_skills text).
Proof.
  destruct doc as [n pages]. cbn [upload_pages]. intros Hpage Hin.
  exists (document_text (mkUpload n pages)). split; [reflexivity |].
  apply extract_skills_In. apply extract_skills_In in Hin.
  destruct Hin as [Hs Hsub]. split; [exact Hs |].
  eapply Substring_trans; [exact Hsub |].
  now apply lower_Substring, page_in_text.
Qed.

Lemma page_skill_in_document_witness :
  exists text,
    extract_text_from_pdf
      (readable (mkUpload "cv.pdf" ["Profile"; "SQL and Excel"; "Hobbies"]))
    = Ok text
    /\ In "SQL" (extract_skills text).
Proof.
  apply (page_skill_in_document
           (mkUpload "cv.pdf" ["Profile"; "SQL and Excel"; "Hobbies"])
           "SQL and Excel" "SQL").
  - simpl. tauto.
  - vm_compute. tauto.
Defined.

(** X8. When every page text is empty or ends in a line break, as
    [get_text()] yields them, the skills of a PDF that was read are exactly
    those detected on one of its pages: a skill name that is broken across
    a page break is not detected. *)
Theorem document_skills_by_page (doc : upload) (s : string) :
  Forall page_text_shape (upload_pages doc) ->
  (In s (skills_of doc)
   <-> exists page, In page (upload_pages doc) /\ In s (extract_skills page)).
Proof.
  destruct doc as [n pages]. cbn [upload_pages]. intros Hshape.
  unfold skills_of. split.
  - intros Hin. apply extract_skills_In in Hin. destruct Hin as [Hs Hsub].
    destruct (document_skill_on_page n pages s Hshape Hs Hsub) as [page [Hp Hsp]].
    exists page. split; [exact Hp |]. apply extract_skills_In. now split.
  - intros [page [Hp Hin]]. apply extract_skills_In in Hin.
    destruct Hin as [Hs Hsub]. apply extract_skills_In. split; [exact Hs |].
    eapply Substring_trans; [exact Hsub |].
    now apply lower_Substring, page_in_text.
Qed.

Lemma document_skills_by_page_witness :
  In "Data Structures"
     (skills_of (mkUpload "cv.pdf" [ "Courses: Data" ++ newline;
                                     "Structures, SQL" ++ newline ]))
  <-> exists page,
        In page [ "Courses: Data" ++ newline; "Structures, SQL" ++ newline ]
        /\ In "Data Structures" (extract_skills page).
Proof.
  apply (document_skills_by_page
           (mkUpload "cv.pdf" [ "Courses: Data" ++ newline;
                                "Structures, SQL" ++ newline ])
           "Data Structures").
  constructor; [right; eexists; reflexivity |].
  constructor; [right; eexists; reflexivity | constructor].
Defined.

End PdfText.

(* ------------------------------------------------------------------ *)
(** ** More on missing skills *)

Section SuggestMore.

Lemma suggest_skills_known found role required :
  lookup job_roles role = Some required ->
  suggest_skills found role
  = filter (fun s => negb (PyList.mem s found)) required.
Proof. intros H. unfold suggest_skills, dict_get. now rewrite H. Qed.

Lemma suggest_skills_unknown found role :
  lookup job_roles role = None -> suggest_skills found role = [].
Proof. intros H. unfold suggest_skills, dict_get. now rewrite H. Qed.

Lemma suggest_skills_In found role required s :
  lookup job_roles role = Some required ->
  (In s (suggest_skills found role) <-> In s required /\ ~ In s found).
Proof.
  intros H. rewrite (suggest_skills_known _ _ _ H), filter_In.
  rewrite negb_true_iff, <- not_true_iff_false, mem_In. tauto.
Qed.

Lemma filter_nil_iff {A} (f : A -> bool) (l : list A) :
  filter f l = [] <-> forall x, In x l -> f x = false.
Proof.
  induction l as [|a l IH]; simpl.
  - split; [intros _ x [] | reflexivity].
  - destruct (f a) eqn:E.
    + split; [discriminate |]. intros H. specialize (H a (or_introl eq_refl)). congruence.
    + rewrite IH. split.
      * intros H x [<- | Hx]; auto.
      * intros H x Hx. apply H. now right.
Qed.

Lemma required_NoDup role required :
  lookup job_roles role = Some required -> NoDup required.
Proof.
  intros H. apply lookup_In in H. simpl in H.
  repeat (destruct H as [[= <- <-] | H];
          [repeat constructor; simpl; intuition discriminate |]).
  contradiction.
Qed.

Lemma required_in_catalog role required :
  lookup job_roles role = Some required -> incl required all_skills.
Proof.
  intros H. apply lookup_In in H. intros s Hs.
  unfold all_skills. apply sorted_In. unfold PyList.set_list. apply nodup_In.
  apply in_flat_map. exists required. split; [| exact Hs].
  unfold values. apply in_map_iff. now exists (role, required).
Qed.

(** X9. For a role of the catalog, nothing detected means every required
    skill is missing, in the role's order; and the list of missing skills
    is empty exactly when every required skill was detected. *)
Theorem suggest_skills_extremes (found : list string) (role : string)
    (required : list string) :
  lookup job_roles role = Some required ->
  suggest_skills [] role = required
  /\ (suggest_skills found role = [] <-> incl required found).
Proof.
  intros H. split.
  - rewrite (suggest_skills_known _ _ _ H). apply forallb_filter_id.
    apply forallb_forall. reflexivity.
  - rewrite (suggest_skills_known _ _ _ H), filter_nil_iff. unfold incl.
    split; intros Hall s Hs; specialize (Hall s Hs).
    + apply negb_false_iff in Hall. now apply mem_In.
    + apply negb_false_iff. now apply mem_In.
Qed.

Lemma suggest_skills_extremes_witness :
  suggest_skills [] "Software Engineer"
  = ["Java"; "C++"; "Data Structures"; "Algorithms"]
  /\ (suggest_skills ["Algorithms"; "C++"; "Data Structures"; "Java"; "SQL"]
        "Software Engineer" = []
      <-> incl ["Java"; "C++"; "Data Structures"; "Algorithms"]
               ["Algorithms"; "C++"; "Data Structures"; "Java"; "SQL"]).
Proof.
  apply (suggest_skills_extremes
           ["Algorithms"; "C++"; "Data Structures"; "Java"; "SQL"]
           "Software Engineer" ["Java"; "C++"; "Data Structures"; "Algorithms"]).
  reflexivity.
Defined.

(** X10. Detecting more never adds a missing skill: if every skill of one
    detected list is in another, the missing skills for the second are
    among those for the first, whatever the role. *)
Theorem suggest_skills_antitone (found found' : list string) (role : string) :
  incl found found' ->
  incl (suggest_skills found' role) (suggest_skills found role).
Proof.
  intros Hincl s. unfold suggest_skills. rewrite !filter_In.
  intros [Hr Hs]. split; [exact Hr |].
  apply negb_true_iff in Hs. apply negb_true_iff.
  destruct (PyList.mem s found) eqn:E; [| reflexivity].
  apply mem_In, Hincl, mem_In in E. congruence.
Qed.

Lemma suggest_skills_antitone_witness :
  incl (suggest_skills ["Python"; "SQL"] "Data Analyst")
       (suggest_skills ["Python"] "Data Analyst").
Proof.
  apply (suggest_skills_antitone ["Python"] ["Python"; "SQL"] "Data Analyst").
  intros s Hs. simpl in *. tauto.
Defined.

(** X11. For a role of the catalog, the number of missing skills plus the
    number of required skills that were detected is the number of required
    skills. *)
Theorem suggest_skills_count (found : list string) (role : string)
    (required : list string) :
  lookup job_roles role = Some required ->
  (List.length (suggest_skills found role)
   + List.length (filter (fun s => PyList.mem s found) required)
   = List.length required)%nat.
Proof.
  intros H. rewrite (suggest_skills_known _ _ _ H). clear H.
  induction required as [|s l IH]; simpl; [reflexivity |].
  destruct (PyList.mem s found); simpl; lia.
Qed.

Lemma suggest_skills_count_witness :
  (List.length (suggest_skills ["Excel"; "Java"; "Python"] "Data Analyst")
   + List.length (filter (fun s => PyList.mem s ["Excel"; "Java"; "Python"])
                         ["Python"; "SQL"; "Excel"; "Power BI"; "Statistics"])
   = List.length ["Python"; "SQL"; "Excel"; "Power BI"; "Statistics"])%nat.
Proof.
  apply (suggest_skills_count ["Excel"; "Java"; "Python"] "Data Analyst"
           ["Python"; "SQL"; "Excel"; "Power BI"; "Statistics"]).
  reflexivity.
Defined.

(** X12. The missing skills depend only on which of the role's skills were
    detected: the order of the detected list, repetitions in it and skills
    outside the role make no difference. *)
Theorem suggest_skills_membership_only (found1 found2 : list string)
    (role : string) :
  (forall s, In s (dict_get job_roles role []) -> (In s found1 <-> In s found2)) ->
  suggest_skills found1 role = suggest_skills found2 role.
Proof.
  intros H. unfold suggest_skills. apply filter_ext_in. intros s Hs.
  f_equal. specialize (H s Hs).
  destruct (PyList.mem s found1) eqn:E1, (PyList.mem s found2) eqn:E2;
    try reflexivity.
  - apply mem_In, H, mem_In in E1. congruence.
  - apply mem_In, H, mem_In in E2. congruence.
Qed.

Lemma suggest_skills_membership_only_witness :
  suggest_skills ["SQL"; "Java"; "Python"; "SQL"] "Data Analyst"
  = suggest_skills ["Python"; "SQL"] "Data Analyst".
Proof.
  apply (suggest_skills_membership_only
           ["SQL"; "Java"; "Python"; "SQL"] ["Python"; "SQL"] "Data Analyst").
  intros s Hs. simpl in Hs. simpl.
  repeat (destruct Hs as [<- | Hs]; [intuition discriminate |]).
  contradiction.
Defined.

(** X13. Whatever the role name and the detected list, the missing skills
    are skills of the catalog and none is listed twice. *)
Theorem suggest_skills_catalog (found : list string) (role : string) :
  NoDup (suggest_skills found role)
  /\ incl (suggest_skills found role) all_skills.
Proof.
  destruct (lookup job_roles role) as [required |] eqn:H.
  - rewrite (suggest_skills_known _ _ _ H). split.
    + apply NoDup_filter. eapply required_NoDup; eauto.
    + intros s Hs. apply filter_In in Hs.
      eapply required_in_catalog; [exact H | tauto].
  - rewrite (suggest_skills_unknown _ _ H). split; [constructor | intros s []].
Qed.

End SuggestMore.

(* ------------------------------------------------------------------ *)
(** ** More on the analysis of one resume and of a batch *)

Section AnalysisMore.

Open Scope Z_scope.

Lemma missing_in_catalog found role : incl (suggest_skills found role) all_skills.
Proof.
  destruct (lookup job_roles role) as [required |] eqn:H.
  - rewrite (suggest_skills_known _ _ _ H). intros s Hs. apply filter_In in Hs.
    eapply required_in_catalog; [exact H | tauto].
  - rewrite (suggest_skills_unknown _ _ H). intros s [].
Qed.

Lemma required_nonempty role required :
  lookup job_roles role = Some required -> required <> [].
Proof. intros H ->. destruct (required_length _ _ H); discriminate. Qed.

Lemma analyse_known file role text required :
  lookup job_roles role = Some required ->
  analyse file role text
  = Ok (mkAnalysis file role (extract_skills text)
          (suggest_skills (extract_skills text) role)
          (100 * PyList.len (extract_skills text) / PyList.len required)).
Proof.
  intros H. unfold analyse.
  now rewrite (job_fit_extract _ _ _ H (required_nonempty _ _ H)).
Qed.

Lemma analyse_fields file role text r :
  analyse file role text = Ok r ->
  resume_file r = file /\ target_role r = role
  /\ detected_skills r = extract_skills text
  /\ missing_skills r = suggest_skills (extract_skills text) role.
Proof.
  unfold analyse. destruct (job_fit (extract_skills text) role); simpl; [| discriminate].
  intros [= <-]. repeat split.
Qed.

(** X14. For a role of the catalog the stored fit is the number of
    detected skills times 100 over the number of required skills, with no
    remainder lost; it is 0 exactly when nothing was detected, and it is at
    least 100 whenever no skill is missing. *)
Theorem fit_and_missing (file role text : string) (required : list string)
    (r : ResumeAnalysis) :
  lookup job_roles role = Some required ->
  analyse file role text = Ok r ->
  job_fit_pct r = (100 / PyList.len required) * PyList.len (detected_skills r)
  /\ (job_fit_pct r = 0 <-> detected_skills r = [])
  /\ (missing_skills r = [] -> 100 <= job_fit_pct r).
Proof.
  intros Hl Hr.
  destruct (analyse_fields _ _ _ _ Hr) as [_ [_ [Hdet Hmis]]].
  rewrite (analyse_known _ _ _ _ Hl) in Hr.
  assert (Hfit : 100 * PyList.len (extract_skills text) / PyList.len required
                 = job_fit_pct r)
    by exact (f_equal (fun x => match x with
                                | Ok a => job_fit_pct a
                                | Raise _ => 0
                                end) Hr).
  rewrite <- Hfit, Hdet, Hmis. clear Hr Hfit Hdet Hmis r.
  pose proof (extract_skills_length text) as Hlen.
  assert (Hmiss : suggest_skills (extract_skills text) role = [] ->
                  PyList.len required <= PyList.len (extract_skills text)).
  { intros Hnil. unfold PyList.len. apply Nat2Z.inj_le.
    apply NoDup_incl_length; [eapply required_NoDup; eauto |].
    rewrite (suggest_skills_known _ _ _ Hl), filter_nil_iff in Hnil.
    intros s Hs. specialize (Hnil s Hs).
    apply negb_false_iff in Hnil. now apply mem_In. }
  assert (Hnil : extract_skills text = [] <-> PyList.len (extract_skills text) = 0).
  { unfold PyList.len. destruct (extract_skills text); simpl; split;
      try reflexivity; try discriminate; lia. }
  rewrite Hnil. clear Hnil.
  destruct (required_length _ _ Hl) as [E | E]; rewrite E in *;
    change (100 / 4) with 25; change (100 / 5) with 20;
    unfold PyList.len in *;
    (split; [| split; [split; intros H0 | intros H0; apply Hmiss in H0]]);
    Z.div_mod_to_equations; lia.
Qed.

Lemma fit_and_missing_witness :
  exists r,
    analyse "cv.pdf" "Data Analyst" "Excel and Python" = Ok r
    /\ job_fit_pct r = 40.
Proof.
  assert (Ha : analyse "cv.pdf" "Data Analyst" "Excel and Python"
               = Ok (mkAnalysis "cv.pdf" "Data Analyst" ["Excel"; "Python"]
                       ["SQL"; "Power BI"; "Statistics"] 40))
    by (vm_compute; reflexivity).
  eexists. split; [exact Ha |].
  exact (proj1 (fit_and_missing "cv.pdf" "Data Analyst" "Excel and Python"
                  ["Python"; "SQL"; "Excel"; "Power BI"; "Statistics"] _
                  eq_refl Ha)).
Defined.

(** X15. A fit of 100 says nothing about the gap: for every role of the
    catalog there is a text for which every required skill is missing and
    the stored fit is 100 or more. *)
Theorem full_fit_with_everything_missing (file role : string)
    (required : list string) :
  lookup job_roles role = Some required ->
  exists text r,
    analyse file role text = Ok r
    /\ missing_skills r = required
    /\ 100 <= job_fit_pct r.
Proof.
  intros H. apply lookup_In in H. simpl in H.
  destruct H as [[= <- <-] | [[= <- <-] | [[= <- <-] | [[= <- <-] | []]]]].
  - exists "HTML CSS React Java C++". eexists.
    split; [vm_compute; reflexivity |]. split; [reflexivity | simpl; lia].
  - exists "HTML CSS React Java C++". eexists.
    split; [vm_compute; reflexivity |]. split; [reflexivity | simpl; lia].
  - exists "Python Excel Java C++ Algorithms". eexists.
    split; [vm_compute; reflexivity |]. split; [reflexivity | simpl; lia].
  - exists "Python SQL Excel HTML". eexists.
    split; [vm_compute; reflexivity |]. split; [reflexivity | simpl; lia].
Qed.

Lemma full_fit_with_everything_missing_witness :
  exists text r,
    analyse "cv.pdf" "Web Developer" text = Ok r
    /\ missing_skills r = ["HTML"; "CSS"; "JavaScript"; "React"; "SQL"]
    /\ 100 <= job_fit_pct r.
Proof.
  apply (full_fit_with_everything_missing "cv.pdf" "Web Developer"
           ["HTML"; "CSS"; "JavaScript"; "React"; "SQL"]).
  reflexivity.
Defined.

(** What a finished loop says of its files and of its entries. *)
Lemma resume_results_from_entries used files results :
  resume_results_from used files = Ok results ->
  Forall2 (fun fr r =>
             exists doc,
               fst fr = readable doc
               /\ analyse (upload_name doc) (snd fr) (document_text doc) = Ok r)
          files results
  /\ NoDup (map (fun fr => file_name_of (fst fr)) files)
  /\ (forall fr, In fr files -> ~ In (file_name_of (fst fr)) used).
Proof.
  revert used results. induction files as [|[file role] rest IH]; intros used results.
  - intros [= <-]. repeat split; [constructor | constructor | intros fr []].
  - cbn [resume_results_from]. unfold selectbox_key.
    destruct (PyList.mem (file_name_of file) used) eqn:Eused; cbn [bind];
      [discriminate |].
    destruct file as [doc | n]; cbn [extract_text_from_pdf bind]; [| discriminate].
    cbn [file_name_of] in *.
    destruct (analyse (upload_name doc) role (document_text doc)) as [r | e] eqn:Ha;
      cbn [bind]; [| discriminate].
    destruct (resume_results_from (upload_name doc :: used) rest) as [rs | e] eqn:Hrest;
      cbn [bind]; [| discriminate].
    intros [= <-]. destruct (IH _ _ Hrest) as [Hall [Hnodup Hfresh]].
    assert (Hnot : ~ In (upload_name doc) used).
    { intros H. apply mem_In in H. congruence. }
    repeat split.
    + constructor; [| exact Hall]. exists doc. now split.
    + cbn [map fst file_name_of]. constructor; [| exact Hnodup].
      intros H. apply in_map_iff in H. destruct H as [fr [E Hfr]].
      apply (Hfresh fr Hfr). rewrite E. now left.
    + intros fr [<- | Hfr]; [exact Hnot |].
      intros H. apply (Hfresh fr Hfr). now right.
Qed.

Lemma resume_results_entries files results :
  resume_results files = Ok results ->
  Forall2 (fun fr r =>
             exists doc,
               fst fr = readable doc
               /\ analyse (upload_name doc) (snd fr) (document_text doc) = Ok r)
          files results.
Proof. intros H. now apply (resume_results_from_entries [] files results). Qed.



End AnalysisMore.

(* ------------------------------------------------------------------ *)
(** ** Facts about rows and frames *)

Section TableFacts.

Lemma lookup_setitem {V} (d : dict V) (k : string) (v : V) (k' : string) :
  lookup (setitem d k v) k' = if String.eqb k' k then Some v else lookup d k'.
Proof.
  induction d as [|[k0 v0] d IH]; simpl; [reflexivity |].
  destruct (String.eqb_spec k k0) as [-> | Hk]; simpl.
  - destruct (String.eqb k' k0); reflexivity.
  - rewrite IH. destruct (String.eqb_spec k' k0) as [-> | _]; [| reflexivity].
    destruct (String.eqb_spec k0 k) as [E | _]; [now symmetry in E | reflexivity].
Qed.

Lemma keys_setitem_incl {V} (d : dict V) (k : string) (v : V) :
  incl (keys (setitem d k v)) (k :: keys d).
Proof.
  induction d as [|[k0 v0] d IH]; simpl.
  - intros x [<- | []]. now left.
  - destruct (String.eqb_spec k k0) as [-> | _]; simpl.
    + intros x [<- | Hx]; [now left | right; now right].
    + intros x [<- | Hx]; [right; now left |].
      destruct (IH x Hx) as [<- | Hx']; [now left | right; now right].
Qed.

Variable mark_of : string -> mark.

Lemma mark_fold_lookup (u : list string) (init : dict entry) (k : string) :
  lookup (fold_left (fun row skill => setitem row skill (mark_entry (mark_of skill)))
                    u init) k
  = if in_dec string_dec k u then Some (mark_entry (mark_of k)) else lookup init k.
Proof.
  revert init. induction u as [|a u IH]; intros init; simpl; [reflexivity |].
  rewrite IH, lookup_setitem.
  destruct (in_dec string_dec k u) as [Hin | Hnot].
  - destruct (string_dec a k); reflexivity.
  - destruct (string_dec a k) as [-> | Hne].
    + now rewrite String.eqb_refl.
    + destruct (String.eqb_spec k a) as [-> | _]; [contradiction | reflexivity].
Qed.

Lemma mark_fold_keys (u : list string) (init : dict entry) :
  incl (keys (fold_left (fun row skill => setitem row skill (mark_entry (mark_of skill)))
                        u init))
       (keys init ++ u)%list.
Proof.
  revert init. induction u as [|a u IH]; intros init; simpl.
  - rewrite app_nil_r. apply incl_refl.
  - intros x Hx. apply IH in Hx. apply in_app_or in Hx.
    apply in_or_app. destruct Hx as [Hx | Hx]; [| right; now right].
    apply keys_setitem_incl in Hx. destruct Hx as [<- | Hx]; [right; now left | now left].
Qed.

Lemma mark_row_skill (file : string) (u : list string) (skill : string) :
  In skill u ->
  cell_at (mark_row file mark_of u) skill = Some (mark_entry (mark_of skill)).
Proof.
  intros H. unfold cell_at, mark_row. rewrite mark_fold_lookup.
  destruct (in_dec string_dec skill u); [reflexivity | contradiction].
Qed.

Lemma mark_row_resume (file : string) (u : list string) :
  ~ In "Resume" u ->
  cell_at (mark_row file mark_of u) "Resume" = Some (text_entry file).
Proof.
  intros H. unfold cell_at, mark_row. rewrite mark_fold_lookup.
  destruct (in_dec string_dec "Resume" u); [contradiction | reflexivity].
Qed.

Lemma mark_row_keys (file : string) (u : list string) :
  incl (keys (mark_row file mark_of u)) ("Resume" :: u).
Proof. unfold mark_row. apply (mark_fold_keys u [("Resume", text_entry file)]). Qed.

End TableFacts.

Section FrameFacts.

Context {R : Type}.
Variable row_of : R -> dict entry.

Lemma concat_row_same_columns (df : DataFrame) (row : dict entry) :
  incl (keys row) (columns df) -> columns (concat_row df row) = columns df.
Proof.
  intros H. unfold concat_row. simpl.
  assert (E : filter (fun k => negb (PyList.mem k (columns df))) (keys row) = []).
  { apply filter_nil_iff. intros k Hk. apply negb_false_iff, mem_In. auto. }
  rewrite E. apply app_nil_r.
Qed.

Lemma frame_fold (l : list R) (df0 : DataFrame) :
  (forall r, In r l -> incl (keys (row_of r)) (columns df0)) ->
  fold_left (fun df r => concat_row df (row_of r)) l df0
  = mkFrame (columns df0) (rows df0 ++ map row_of l)%list.
Proof.
  revert df0. induction l as [|r l IH]; intros df0 H; simpl.
  - rewrite app_nil_r. now destruct df0.
  - assert (Hc : columns (concat_row df0 (row_of r)) = columns df0)
      by (apply concat_row_same_columns, H; now left).
    rewrite IH.
    + rewrite Hc. simpl. now rewrite <- app_assoc.
    + intros r' Hr'. rewrite Hc. apply H. now right.
Qed.

Lemma Forall2_map_self (P : R -> dict entry -> Prop) (l : list R) :
  (forall r, In r l -> P r (row_of r)) -> Forall2 P l (map row_of l).
Proof.
  induction l as [|r l IH]; intros H; simpl; constructor.
  - apply H. now left.
  - apply IH. intros r' Hr'. apply H. now right.
Qed.

Lemma count_mark_rows (m : mark) (label : string) (cols : list string)
    (l : list R) (holds : R -> bool) :
  (forall r, In r l ->
     (cell_at (row_of r) label = Some (mark_entry m) <-> holds r = true)
     /\ exists m', cell_at (row_of r) label = Some (mark_entry m')) ->
  count_mark m label (mkFrame cols (map row_of l)) = List.length (filter holds l).
Proof.
  unfold count_mark. cbn [rows].
  induction l as [|r l IH]; intros H; [reflexivity |].
  assert (IH' := IH (fun r' Hr' => H r' (or_intror Hr'))). clear IH.
  destruct (H r (or_introl eq_refl)) as [Hiff [m' Hm']].
  cbn [map filter]. rewrite Hm' in *.
  destruct (holds r) eqn:Eh.
  - assert (E : Some (mark_entry m') = Some (mark_entry m)) by now apply Hiff.
    injection E as ->. destruct m; cbn [List.length]; now rewrite IH'.
  - assert (Hne : m' <> m).
    { intros ->. assert (false = true) by now apply Hiff. discriminate. }
    destruct m', m; try congruence; exact IH'.
Qed.

Lemma filter_split_length {A} (f : A -> bool) (l : list A) :
  (List.length (filter f l) + List.length (filter (fun x => negb (f x)) l)
   = List.length l)%nat.
Proof.
  induction l as [|a l IH]; simpl; [reflexivity |].
  destruct (f a); simpl; lia.
Qed.

Lemma filter_length_pos {A} (f : A -> bool) (l : list A) (x : A) :
  In x l -> f x = true -> (1 <= List.length (filter f l))%nat.
Proof.
  intros Hin Hf. assert (H : In x (filter f l)) by (apply filter_In; auto).
  destruct (filter f l); [contradiction | simpl; lia].
Qed.

End FrameFacts.

Section UnionFacts.

Lemma sorted_set_In (l : list string) (x : string) :
  In x (PyList.sorted (PyList.set_list l)) <-> In x l.
Proof. rewrite sorted_In. unfold PyList.set_list. apply nodup_In. Qed.

Lemma sorted_set_nil (l : list string) :
  PyList.sorted (PyList.set_list l) = [] <-> l = [].
Proof.
  split.
  - intros H. destruct l as [|x l]; [reflexivity |].
    assert (Hx : In x (PyList.sorted (PyList.set_list (x :: l))))
      by (apply sorted_set_In; now left).
    rewrite H in Hx. contradiction.
  - now intros ->.
Qed.

Lemma flat_map_nil {A B} (f : A -> list B) (l : list A) :
  flat_map f l = [] <-> forall x, In x l -> f x = [].
Proof.
  induction l as [|a l IH]; simpl.
  - split; [intros _ x [] | reflexivity].
  - split.
    + intros H. apply app_eq_nil in H. destruct H as [Ha Hl].
      intros x [<- | Hx]; [exact Ha | now apply IH].
    + intros H. rewrite (H a (or_introl eq_refl)). simpl.
      apply IH. intros x Hx. apply H. now right.
Qed.

Lemma resume_not_a_skill : ~ In "Resume" all_skills.
Proof.
  rewrite all_skills_value. simpl. intros H.
  repeat (destruct H as [H | H]; [discriminate |]). exact H.
Qed.

End UnionFacts.

(* ------------------------------------------------------------------ *)
(** ** The skill gap tracker *)

Section GapTracker.

Lemma missing_union_In results skill :
  In skill (missing_union results)
  <-> exists r, In r results /\ In skill (missing_skills r).
Proof. unfold missing_union. rewrite sorted_set_In. apply in_flat_map. Qed.

Lemma gap_row_skill u r skill :
  In skill u ->
  cell_at (gap_row u r) skill
  = Some (mark_entry (if PyList.mem skill (missing_skills r)
                      then cross_mark else check_mark)).
Proof. intros H. unfold gap_row. now rewrite mark_row_skill. Qed.

Lemma skill_gap_tracker_table results :
  missing_union results <> [] ->
  skill_gap_tracker results
  = table (mkFrame ("Resume" :: missing_union results)
                   (map (gap_row (missing_union results)) results)).
Proof.
  intros Hne. unfold skill_gap_tracker. cbv zeta.
  destruct (missing_union results) as [|s u] eqn:E; [congruence |].
  cbn [PyList.truthy]. f_equal.
  rewrite frame_fold; [reflexivity |].
  intros r _. apply mark_row_keys.
Qed.

Lemma results_missing_in_catalog files results :
  resume_results files = Ok results ->
  forall r, In r results -> incl (missing_skills r) all_skills.
Proof.
  intros H. apply resume_results_entries in H.
  induction H as [|fr r files results [doc [_ Ha]] _ IH]; intros r' Hr';
    [destruct Hr' |].
  destruct Hr' as [<- | Hr']; [| now apply IH].
  apply analyse_fields in Ha. destruct Ha as [_ [_ [_ ->]]].
  apply missing_in_catalog.
Qed.

Lemma results_detected_in_catalog files results :
  resume_results files = Ok results ->
  forall r, In r results -> incl (detected_skills r) all_skills.
Proof.
  intros H. apply resume_results_entries in H.
  induction H as [|fr r files results [doc [_ Ha]] _ IH]; intros r' Hr';
    [destruct Hr' |].
  destruct Hr' as [<- | Hr']; [| now apply IH].
  apply analyse_fields in Ha. destruct Ha as [_ [_ [-> _]]].
  intros s Hs. apply extract_skills_In in Hs. exact (proj1 Hs).
Qed.

(** X17. With at least one analysed resume, the tracker shows the message
    "No missing skills across uploaded resumes" instead of a table exactly
    when no analysed resume has a missing skill. *)
Theorem skill_gap_tracker_message (results : list ResumeAnalysis) :
  results <> [] ->
  (skill_gap_tracker results = info "No missing skills across uploaded resumes"
   <-> forall r, In r results -> missing_skills r = []).
Proof.
  intros _. rewrite <- flat_map_nil, <- sorted_set_nil. fold (missing_union results).
  split.
  - intros H. destruct (missing_union results) as [|s u] eqn:E; [reflexivity |].
    rewrite skill_gap_tracker_table in H by (rewrite E; discriminate).
    discriminate.
  - intros E. unfold skill_gap_tracker. cbv zeta. now rewrite E.
Qed.

Lemma skill_gap_tracker_message_witness :
  skill_gap_tracker
    [ mkAnalysis "a.pdf" "Software Engineer"
        ["Algorithms"; "C++"; "Data Structures"; "Java"] [] 100 ]
  = info "No missing skills across uploaded resumes".
Proof.
  apply (skill_gap_tracker_message
           [ mkAnalysis "a.pdf" "Software Engineer"
               ["Algorithms"; "C++"; "Data Structures"; "Java"] [] 100 ]).
  - discriminate.
  - intros r [<- | []]. reflexivity.
Defined.

(** X18. When some resume of a finished run has a missing skill, the
    tracker shows a table whose header is "Resume" followed by the sorted
    missing skills of all resumes, with one row per resume in order; a row
    holds the file name under "Resume" and, under each skill, the cross
    mark if the skill is missing for that resume and the check mark
    otherwise; every skill column holds at least one cross mark. *)
Theorem skill_gap_tracker_cells (files : list (uploaded_file * string))
    (results : list ResumeAnalysis) :
  resume_results files = Ok results ->
  (exists r, In r results /\ missing_skills r <> []) ->
  exists df,
    skill_gap_tracker results = table df
    /\ columns df = "Resume" :: missing_union results
    /\ Forall2 (fun r row =>
                  cell_at row "Resume" = Some (text_entry (resume_file r))
                  /\ forall skill, In skill (missing_union results) ->
                       cell_at row skill
                       = Some (mark_entry
                                 (if in_dec string_dec skill (missing_skills r)
                                  then cross_mark else check_mark)))
               results (rows df)
    /\ (forall skill, In skill (missing_union results) ->
          (1 <= count_mark cross_mark skill df)%nat).
Proof.
  intros Hrun [r0 [Hr0 Hne0]].
  assert (Hne : missing_union results <> []).
  { intros E. unfold missing_union in E. rewrite sorted_set_nil, flat_map_nil in E.
    now apply Hne0, E. }
  assert (Hresume : ~ In "Resume" (missing_union results)).
  { intros H. apply missing_union_In in H. destruct H as [r [Hr Hs]].
    apply resume_not_a_skill.
    exact (results_missing_in_catalog _ _ Hrun r Hr _ Hs). }
  eexists. split; [now apply skill_gap_tracker_table |].
  split; [reflexivity |]. cbn [rows columns]. split.
  - apply Forall2_map_self. intros r _. split.
    + unfold gap_row. now apply mark_row_resume.
    + intros skill Hs. rewrite (gap_row_skill _ _ _ Hs). do 2 f_equal.
      destruct (in_dec string_dec skill (missing_skills r)) as [Hin | Hnot].
      * apply mem_In in Hin. now rewrite Hin.
      * destruct (PyList.mem skill (missing_skills r)) eqn:E; [| reflexivity].
        apply mem_In in E. contradiction.
  - intros skill Hs.
    rewrite (count_mark_rows _ cross_mark skill _ results
               (fun r => PyList.mem skill (missing_skills r))).
    + apply missing_union_In in Hs. destruct Hs as [r [Hr Hin]].
      apply (filter_length_pos _ _ r Hr). now apply mem_In.
    + intros r _. rewrite (gap_row_skill _ _ _ Hs).
      destruct (PyList.mem skill (missing_skills r)); split;
        try (split; congruence); eexists; reflexivity.
Qed.

Lemma skill_gap_tracker_cells_witness :
  exists df,
    skill_gap_tracker
      [ mkAnalysis "a.pdf" "Software Engineer" ["C++"; "Java"]
          ["Data Structures"; "Algorithms"] 50 ]
    = table df
    /\ columns df = ["Resume"; "Algorithms"; "Data Structures"].
Proof.
  destruct (skill_gap_tracker_cells
              [ (readable (mkUpload "a.pdf" ["Java and C++"]), "Software Engineer") ]
              [ mkAnalysis "a.pdf" "Software Engineer" ["C++"; "Java"]
                  ["Data Structures"; "Algorithms"] 50 ])
    as [df [Hdf [Hcols _]]].
  - vm_compute. reflexivity.
  - eexists. split; [now left | discriminate].
  - exists df. split; [exact Hdf |]. rewrite Hcols. vm_compute. reflexivity.
Defined.

(** X19. A check mark in the tracker does not say that the skill was
    detected: for a resume analysed against a role of the catalog, the cell
    under a skill of the header holds the check mark exactly when the skill
    was detected or is not required by the role. *)
Theorem gap_check_mark_meaning (file role text : string)
    (required u : list string) (r : ResumeAnalysis) (skill : string) :
  lookup job_roles role = Some required ->
  analyse file role text = Ok r ->
  In skill u ->
  (cell_at (gap_row u r) skill = Some (mark_entry check_mark)
   <-> In skill (detected_skills r) \/ ~ In skill required).
Proof.
  intros Hl Ha Hs. rewrite (gap_row_skill _ _ _ Hs).
  apply analyse_fields in Ha. destruct Ha as [_ [_ [-> ->]]].
  destruct (PyList.mem skill (suggest_skills (extract_skills text) role)) eqn:E.
  - apply mem_In, (suggest_skills_In _ _ _ _ Hl) in E.
    split; [discriminate | tauto].
  - split; [intros _ | reflexivity].
    destruct (in_dec string_dec skill (extract_skills text)) as [Hd | Hd]; [now left |].
    right. intros Hreq.
    assert (Hin : In skill (suggest_skills (extract_skills text) role))
      by (apply (suggest_skills_In _ _ _ _ Hl); auto).
    apply mem_In in Hin. congruence.
Qed.

Lemma gap_check_mark_meaning_witness :
  exists r,
    analyse "a.pdf" "Data Analyst" "Python only" = Ok r
    /\ ~ In "React" (detected_skills r)
    /\ cell_at (gap_row ["React"; "SQL"] r) "React" = Some (mark_entry check_mark).
Proof.
  eexists. split; [vm_compute; reflexivity |]. split.
  - vm_compute. intuition discriminate.
  - apply (gap_check_mark_meaning "a.pdf" "Data Analyst" "Python only"
             ["Python"; "SQL"; "Excel"; "Power BI"; "Statistics"]
             ["React"; "SQL"] _ "React").
    + reflexivity.
    + vm_compute. reflexivity.
    + simpl. tauto.
    + right. simpl. intuition discriminate.
Defined.

End GapTracker.

(* ------------------------------------------------------------------ *)
(** ** The comparison table *)

Section Comparison.

Lemma resumes_data_readable docs :
  resumes_data (map readable docs) = Ok (data_of docs).
Proof.
  induction docs as [|doc docs IH]; [reflexivity |].
  cbn [map resumes_data extract_text_from_pdf bind]. rewrite IH. reflexivity.
Qed.

Lemma resumes_data_unreadable files file_name :
  In (unreadable file_name) files -> resumes_data files = Raise FileDataError.
Proof.
  induction files as [|file files IH]; [contradiction |].
  intros [-> | Hin]; [reflexivity |].
  cbn [resumes_data]. destruct file as [doc | n]; [| reflexivity].
  cbn [extract_text_from_pdf bind]. now rewrite (IH Hin).
Qed.

Lemma skills_union_In docs skill :
  In skill (skills_union (data_of docs))
  <-> exists doc, In doc docs /\ In skill (skills_of doc).
Proof.
  unfold skills_union, data_of. rewrite sorted_set_In, in_flat_map. split.
  - intros [d [Hd Hs]]. apply in_map_iff in Hd. destruct Hd as [doc [<- Hf]].
    exists doc. split; [exact Hf | exact Hs].
  - intros [doc [Hf Hs]].
    exists (mkSkills (upload_name doc) (skills_of doc)).
    split; [exact (in_map _ _ _ Hf) | exact Hs].
Qed.

Lemma skills_union_catalog docs : incl (skills_union (data_of docs)) all_skills.
Proof.
  intros skill H. apply skills_union_In in H. destruct H as [doc [_ Hs]].
  exact (proj1 (proj1 (extract_skills_In _ _) Hs)).
Qed.

Lemma data_rows u docs :
  map (comparison_row u) (data_of docs)
  = map (fun doc => comparison_row u (mkSkills (upload_name doc) (skills_of doc)))
        docs.
Proof. unfold data_of. apply map_map. Qed.

Lemma comparison_row_skill u d skill :
  In skill u ->
  cell_at (comparison_row u d) skill
  = Some (mark_entry (if PyList.mem skill (data_skills d)
                      then check_mark else cross_mark)).
Proof. intros H. unfold comparison_row. now rewrite mark_row_skill. Qed.

Lemma comparison_table_frame data :
  comparison_table data
  = mkFrame ("Resume" :: skills_union data)
            (map (comparison_row (skills_union data)) data).
Proof.
  unfold comparison_table. cbv zeta. rewrite frame_fold; [reflexivity |].
  intros d _. apply mark_row_keys.
Qed.

Lemma resume_comparison_guard {A} (files : list A) :
  (2 <= List.length files)%nat ->
  PyList.truthy files && (2 <=? PyList.len files)%Z = true.
Proof.
  intros Hlen. apply andb_true_iff. split.
  - destruct files; [simpl in Hlen; lia | reflexivity].
  - apply Z.leb_le. unfold PyList.len. lia.
Qed.

Lemma resume_comparison_table docs :
  (2 <= List.length docs)%nat ->
  resume_comparison (map readable docs)
  = Ok (table (mkFrame ("Resume" :: skills_union (data_of docs))
                 (map (comparison_row (skills_union (data_of docs)))
                      (data_of docs)))).
Proof.
  intros Hlen. unfold resume_comparison.
  rewrite resume_comparison_guard by now rewrite length_map.
  rewrite resumes_data_readable. cbn [bind]. now rewrite comparison_table_frame.
Qed.

Lemma comparison_count docs skill :
  In skill (skills_union (data_of docs)) ->
  count_mark check_mark skill
    (mkFrame ("Resume" :: skills_union (data_of docs))
       (map (comparison_row (skills_union (data_of docs))) (data_of docs)))
  = List.length (filter (fun doc => PyList.mem skill (skills_of doc)) docs)
  /\ count_mark cross_mark skill
       (mkFrame ("Resume" :: skills_union (data_of docs))
          (map (comparison_row (skills_union (data_of docs))) (data_of docs)))
     = List.length (filter (fun doc => negb (PyList.mem skill (skills_of doc))) docs).
Proof.
  intros Hs. rewrite data_rows. split.
  - apply (count_mark_rows _ check_mark skill _ docs
             (fun doc => PyList.mem skill (skills_of doc))).
    intros doc _. rewrite (comparison_row_skill _ _ _ Hs). cbn [data_skills].
    destruct (PyList.mem skill (skills_of doc)); split;
      try (split; congruence); eexists; reflexivity.
  - apply (count_mark_rows _ cross_mark skill _ docs
             (fun doc => negb (PyList.mem skill (skills_of doc)))).
    intros doc _. rewrite (comparison_row_skill _ _ _ Hs). cbn [data_skills].
    destruct (PyList.mem skill (skills_of doc)); split;
      try (split; simpl; congruence); eexists; reflexivity.
Qed.

(** X20. With two or more uploaded files, one file that cannot be read
    ends the comparison in the reader's exception, whatever the other files
    hold: no table is shown for the files that could be read. *)
Theorem resume_comparison_unreadable (files : list uploaded_file)
    (file_name : string) :
  (2 <= List.length files)%nat ->
  In (unreadable file_name) files ->
  resume_comparison files = Raise FileDataError.
Proof.
  intros Hlen Hin. unfold resume_comparison.
  rewrite (resume_comparison_guard _ Hlen).
  now rewrite (resumes_data_unreadable _ _ Hin).
Qed.

Lemma resume_comparison_unreadable_witness :
  resume_comparison [ readable (mkUpload "a.pdf" ["Python"]);
                      unreadable "b.pdf";
                      readable (mkUpload "c.pdf" ["React"]) ]
  = Raise FileDataError.
Proof.
  apply (resume_comparison_unreadable
           [ readable (mkUpload "a.pdf" ["Python"]);
             unreadable "b.pdf";
             readable (mkUpload "c.pdf" ["React"]) ] "b.pdf").
  - simpl. lia.
  - simpl. tauto.
Defined.

(** X21. With two or more files, all of which could be read, the table's
    header is "Resume" followed by the sorted skills detected in any file;
    it has one row per file, in order, holding the file's name and, under
    each skill, the check mark if the skill was detected in that file and
    the cross mark otherwise. *)
Theorem resume_comparison_cells (docs : list upload) :
  (2 <= List.length docs)%nat ->
  exists df,
    resume_comparison (map readable docs) = Ok (table df)
    /\ columns df = "Resume" :: skills_union (data_of docs)
    /\ Forall2 (fun doc row =>
                  cell_at row "Resume" = Some (text_entry (upload_name doc))
                  /\ forall skill, In skill (skills_union (data_of docs)) ->
                       cell_at row skill
                       = Some (mark_entry
                                 (if in_dec string_dec skill (skills_of doc)
                                  then check_mark else cross_mark)))
               docs (rows df).
Proof.
  intros Hlen. eexists. split; [now apply resume_comparison_table |].
  split; [reflexivity |]. cbn [rows]. rewrite data_rows.
  apply (Forall2_map_self
           (fun doc => comparison_row (skills_union (data_of docs))
                         (mkSkills (upload_name doc) (skills_of doc)))).
  intros doc _. split.
  - unfold comparison_row. apply mark_row_resume. intros H.
    apply resume_not_a_skill. now apply (skills_union_catalog docs).
  - intros skill Hs. rewrite (comparison_row_skill _ _ _ Hs). cbn [data_skills].
    do 2 f_equal.
    destruct (in_dec string_dec skill (skills_of doc)) as [Hin | Hnot].
    + apply mem_In in Hin. now rewrite Hin.
    + destruct (PyList.mem skill (skills_of doc)) eqn:E; [| reflexivity].
      apply mem_In in E. contradiction.
Qed.

Lemma resume_comparison_cells_witness :
  exists df,
    resume_comparison [ readable (mkUpload "a.pdf" ["Python"]);
                        readable (mkUpload "b.pdf" ["React"; "CSS"]) ]
    = Ok (table df)
    /\ columns df = ["Resume"; "CSS"; "Python"; "React"].
Proof.
  destruct (resume_comparison_cells
              [ mkUpload "a.pdf" ["Python"]; mkUpload "b.pdf" ["React"; "CSS"] ])
    as [df [Hdf [Hcols _]]].
  - simpl. lia.
  - exists df. split; [exact Hdf |]. rewrite Hcols. vm_compute. reflexivity.
Defined.

(** X22. Under each skill of the header, the number of check marks is the
    number of files in which the skill was detected, which is at least one,
    and the number of cross marks is the number of the other files. *)
Theorem resume_comparison_counts (docs : list upload) (skill : string) :
  (2 <= List.length docs)%nat ->
  In skill (skills_union (data_of docs)) ->
  exists df,
    resume_comparison (map readable docs) = Ok (table df)
    /\ count_mark check_mark skill df
       = List.length (filter (fun doc => PyList.mem skill (skills_of doc)) docs)
    /\ (1 <= count_mark check_mark skill df)%nat
    /\ (count_mark check_mark skill df + count_mark cross_mark skill df
        = List.length docs)%nat.
Proof.
  intros Hlen Hs. eexists. split; [now apply resume_comparison_table |].
  destruct (comparison_count docs skill Hs) as [Hc Hx]. rewrite Hc, Hx.
  split; [reflexivity |]. split.
  - apply skills_union_In in Hs. destruct Hs as [doc [Hf Hin]].
    apply (filter_length_pos _ _ doc Hf). now apply mem_In.
  - apply filter_split_length.
Qed.

Lemma resume_comparison_counts_witness :
  exists df,
    resume_comparison [ readable (mkUpload "a.pdf" ["Python, SQL"]);
                        readable (mkUpload "b.pdf" ["SQL"]);
                        readable (mkUpload "c.pdf" ["none"]) ]
    = Ok (table df)
    /\ count_mark check_mark "SQL" df = 2%nat.
Proof.
  destruct (resume_comparison_counts
              [ mkUpload "a.pdf" ["Python, SQL"]; mkUpload "b.pdf" ["SQL"];
                mkUpload "c.pdf" ["none"] ] "SQL")
    as [df [Hdf [Hc _]]].
  - simpl. lia.
  - vm_compute. tauto.
  - exists df. split; [exact Hdf |]. rewrite Hc. vm_compute. reflexivity.
Defined.

(** X23. For two files with no detected skill in common, every skill
    column of the comparison table holds exactly one check mark and one
    cross mark. *)
Theorem resume_comparison_disjoint (doc1 doc2 : upload) (skill : string) :
  (forall s, In s (skills_of doc1) -> ~ In s (skills_of doc2)) ->
  In skill (skills_union (data_of [doc1; doc2])) ->
  exists df,
    resume_comparison [readable doc1; readable doc2] = Ok (table df)
    /\ count_mark check_mark skill df = 1%nat
    /\ count_mark cross_mark skill df = 1%nat.
Proof.
  intros Hdisj Hs. eexists.
  split; [apply (resume_comparison_table [doc1; doc2]); simpl; lia |].
  destruct (comparison_count [doc1; doc2] skill Hs) as [Hc Hx]. rewrite Hc, Hx.
  apply skills_union_In in Hs. destruct Hs as [doc [Hf Hin]].
  apply mem_In in Hin. cbn [filter].
  destruct (PyList.mem skill (skills_of doc1)) eqn:E1,
           (PyList.mem skill (skills_of doc2)) eqn:E2;
    cbn [negb List.length]; try (split; reflexivity); exfalso.
  - apply mem_In in E1, E2. exact (Hdisj skill E1 E2).
  - destruct Hf as [<- | [<- | []]]; congruence.
Qed.

Lemma resume_comparison_disjoint_witness :
  exists df,
    resume_comparison [ readable (mkUpload "a.pdf" ["Python"]);
                        readable (mkUpload "b.pdf" ["React"]) ]
    = Ok (table df)
    /\ count_mark check_mark "React" df = 1%nat
    /\ count_mark cross_mark "React" df = 1%nat.
Proof.
  apply (resume_comparison_disjoint
           (mkUpload "a.pdf" ["Python"]) (mkUpload "b.pdf" ["React"]) "React").
  - vm_compute. intros s [<- | []] [E | []]. discriminate.
  - vm_compute. tauto.
Defined.

End Comparison.

(* ------------------------------------------------------------------ *)
(** ** The catalog, the learning links and the interview questions *)

Section Tables.

Lemma catalog_skill_has_link skill :
  In skill all_skills -> exists resource, lookup learning_links skill = Some resource.
Proof.
  rewrite all_skills_value. simpl. intros H.
  repeat (destruct H as [<- | H]; [eexists; reflexivity |]).
  contradiction.
Qed.

Lemma recommend_In skill_list skill resource :
  In (skill, resource) (recommend skill_list)
  <-> In skill skill_list /\ lookup learning_links skill = Some resource.
Proof.
  unfold recommend. rewrite in_flat_map. split.
  - intros [s [Hs Hin]]. destruct (lookup learning_links s) as [u |] eqn:E.
    + destruct Hin as [[= <- <-] | []]. auto.
    + contradiction.
  - intros [Hs Hl]. exists skill. split; [exact Hs |]. rewrite Hl. now left.
Qed.

Lemma recommend_catalog_fst skill_list :
  incl skill_list all_skills -> map fst (recommend skill_list) = skill_list.
Proof.
  induction skill_list as [|s l IH]; intros H; [reflexivity |].
  unfold recommend in *. cbn [flat_map].
  destruct (catalog_skill_has_link s) as [u Hu]; [apply H; now left |].
  rewrite Hu. cbn [app map fst]. f_equal. apply IH. intros x Hx. apply H. now right.
Qed.

Lemma overall_skills_In results skill :
  In skill (overall_skills results)
  <-> exists r, In r results /\ In skill (detected_skills r).
Proof. unfold overall_skills. rewrite sorted_set_In. apply in_flat_map. Qed.

(** X24. The catalog is exactly the skills some role requires, each listed
    once, in ascending order. *)
Theorem all_skills_spec (skill : string) :
  (In skill all_skills
   <-> exists role required,
         lookup job_roles role = Some required /\ In skill required)
  /\ NoDup all_skills
  /\ StronglySorted str_le all_skills.
Proof.
  split; [| split; [apply all_skills_NoDup | apply sorted_sorted]].
  split.
  - unfold all_skills. rewrite sorted_set_In, in_flat_map.
    intros [required [Hreq Hs]]. unfold values in Hreq. simpl in Hreq.
    destruct Hreq as [<- | [<- | [<- | [<- | []]]]].
    + exists "Data Analyst". eexists. split; [reflexivity | exact Hs].
    + exists "AI/ML Engineer". eexists. split; [reflexivity | exact Hs].
    + exists "Web Developer". eexists. split; [reflexivity | exact Hs].
    + exists "Software Engineer". eexists. split; [reflexivity | exact Hs].
  - intros [role [required [Hl Hs]]]. exact (required_in_catalog _ _ Hl _ Hs).
Qed.

(** X25. For skills of the catalog, as the multiselect and the analysis
    yield them, the recommendation rows keep every skill, once and in the
    given order, and each row carries the link the table gives for its
    skill. *)
Theorem recommend_catalog (skill_list : list string) :
  incl skill_list all_skills ->
  map fst (recommend skill_list) = skill_list
  /\ (forall skill resource,
        In (skill, resource) (recommend skill_list) ->
        lookup learning_links skill = Some resource).
Proof.
  intros H. split; [now apply recommend_catalog_fst |].
  intros skill resource Hin. now apply recommend_In in Hin.
Qed.

Lemma recommend_catalog_witness :
  map fst (recommend ["SQL"; "C++"]) = ["SQL"; "C++"]
  /\ (forall skill resource,
        In (skill, resource) (recommend ["SQL"; "C++"]) ->
        lookup learning_links skill = Some resource).
Proof.
  apply (recommend_catalog ["SQL"; "C++"]).
  intros s Hs. rewrite all_skills_value. simpl in *. intuition.
Defined.

(** X26. After a finished run over at least one file, module 1 writes "No recommendations
    available" exactly when no skill was detected in any resume; otherwise
    it shows a table with one row for each skill detected in some resume,
    in ascending order. *)
Theorem learning_recommendations_spec (files : list (uploaded_file * string))
    (results : list ResumeAnalysis) :
  files <> [] ->
  resume_results files = Ok results ->
  (learning_recommendations results = plain "No recommendations available"
   <-> forall r, In r results -> detected_skills r = [])
  /\ (forall rec_table,
        learning_recommendations results = table rec_table ->
        map fst rec_table = overall_skills results).
Proof.
  intros _ Hrun.
  assert (Hcat : incl (overall_skills results) all_skills).
  { intros s Hs. apply overall_skills_In in Hs. destruct Hs as [r [Hr Hs]].
    exact (results_detected_in_catalog _ _ Hrun r Hr _ Hs). }
  pose proof (recommend_catalog_fst _ Hcat) as Hfst.
  unfold learning_recommendations. cbv zeta.
  rewrite <- flat_map_nil, <- sorted_set_nil. fold (overall_skills results).
  destruct (recommend (overall_skills results)) as [|p rec] eqn:E; cbn [PyList.truthy].
  - split; [| discriminate]. simpl in Hfst. split; auto.
  - split.
    + split; [discriminate |]. intros Hnil. rewrite Hnil in E. discriminate.
    + intros rec_table [= <-]. exact Hfst.
Qed.

Lemma learning_recommendations_spec_witness :
  (learning_recommendations
     [ mkAnalysis "a.pdf" "Data Analyst" ["Python"]
         ["SQL"; "Excel"; "Power BI"; "Statistics"] 20 ]
   = plain "No recommendations available"
   <-> forall r,
         In r [ mkAnalysis "a.pdf" "Data Analyst" ["Python"]
                  ["SQL"; "Excel"; "Power BI"; "Statistics"] 20 ] ->
         detected_skills r = [])
  /\ (forall rec_table,
        learning_recommendations
          [ mkAnalysis "a.pdf" "Data Analyst" ["Python"]
              ["SQL"; "Excel"; "Power BI"; "Statistics"] 20 ]
        = table rec_table ->
        map fst rec_table
        = overall_skills
            [ mkAnalysis "a.pdf" "Data Analyst" ["Python"]
                ["SQL"; "Excel"; "Power BI"; "Statistics"] 20 ]).
Proof.
  apply (learning_recommendations_spec
           [ (readable (mkUpload "a.pdf" ["Python"]), "Data Analyst") ]
           [ mkAnalysis "a.pdf" "Data Analyst" ["Python"]
               ["SQL"; "Excel"; "Power BI"; "Statistics"] 20 ]).
  - discriminate.
  - vm_compute. reflexivity.
Defined.

(** X27. In the learning hub, for skills picked from the catalog, the
    message "Select skills to see learning resources" appears exactly when
    nothing is picked; otherwise the table has one row per picked skill, in
    the order picked. *)
Theorem learning_hub_spec (selected_skills : list string) :
  incl selected_skills all_skills ->
  (learning_hub selected_skills = info "Select skills to see learning resources"
   <-> selected_skills = [])
  /\ (forall recommended,
        learning_hub selected_skills = table recommended ->
        map fst recommended = selected_skills).
Proof.
  intros H. pose proof (recommend_catalog_fst _ H) as Hfst.
  unfold learning_hub. cbv zeta.
  destruct (recommend selected_skills) as [|p rec] eqn:E; cbn [PyList.truthy].
  - simpl in Hfst. split; [split; auto | discriminate].
  - split.
    + split; [discriminate |]. intros Hnil. rewrite Hnil in E. discriminate.
    + intros recommended [= <-]. exact Hfst.
Qed.

Lemma learning_hub_spec_witness :
  (learning_hub ["React"; "HTML"] = info "Select skills to see learning resources"
   <-> ["React"; "HTML"] = [])
  /\ (forall recommended,
        learning_hub ["React"; "HTML"] = table recommended ->
        map fst recommended = ["React"; "HTML"]).
Proof.
  apply (learning_hub_spec ["React"; "HTML"]).
  intros s Hs. rewrite all_skills_value. simpl in *. intuition.
Defined.

(** X28. The interview questions are keyed by the same roles, in the same
    order, as the role catalog: each role of the select box gets three
    bullet lines, and any other name gets none. *)
Theorem interview_prep_spec (target_job : string) :
  keys interview_qs = role_options
  /\ (In target_job role_options ->
      List.length (interview_prep target_job) = 3%nat
      /\ Forall (fun line => PyStr.startswith "- " line = true)
                (interview_prep target_job))
  /\ (~ In target_job role_options -> interview_prep target_job = []).
Proof.
  split; [reflexivity |]. split.
  - unfold role_options. simpl. intros H.
    repeat (destruct H as [<- | H];
            [split; [reflexivity | repeat constructor] |]).
    contradiction.
  - intros H. change role_options with (keys interview_qs) in H.
    apply lookup_None_keys in H. unfold interview_prep, dict_get. now rewrite H.
Qed.

End Tables.
